(** * bens-facts-bot: the fact store, the access guard and the interaction router

    A shallow embedding of [server.js] and [commands.js].  JavaScript values
    are a small inductive type, the asynchronous functions are computations
    in a state-and-exception monad over the facts file and an event log, and
    the built-ins the program calls but does not define ([JSON.parse],
    [JSON.stringify], [verifyKey]) are the fields of a [Platform]. *)

From Stdlib Require Import List String Ascii Bool ZArith Lia DecimalString.
Import ListNotations.
Open Scope string_scope.
Open Scope Z_scope.

Set Implicit Arguments.

(* ================================================================= *)
(** ** JavaScript values *)

(** The values the program handles: what [JSON.parse] returns, plus
    [undefined] (the result of reading an absent property).  Numbers are the
    integer-valued ones; a string is a sequence of 8-bit code units; an
    object is its list of own properties, each key once, in insertion
    order. *)
Unset Elimination Schemes.
Inductive value : Type :=
| VUndefined
| VNull
| VBool (b : bool)
| VNum (n : Z)
| VStr (s : string)
| VArr (elems : list value)
| VObj (props : list (string * value)).
Set Elimination Schemes.

(** What a JavaScript [throw] carries. *)
Inductive exn : Type :=
| TypeError
| SyntaxError
| Error (message : string).

(** A computation that may throw. *)
Definition result (A : Type) : Type := (exn + A)%type.

Definition ok {A} (a : A) : result A := inr a.
Definition raise {A} (e : exn) : result A := inl e.

Definition rbind {A B} (c : result A) (k : A -> result B) : result B :=
  match c with
  | inl e => inl e
  | inr a => k a
  end.

(** [ToBoolean]: the falsy values are [undefined], [null], [false], [0] and
    the empty string. *)
Definition truthy (v : value) : bool :=
  match v with
  | VUndefined | VNull => false
  | VBool b => b
  | VNum n => negb (n =? 0)
  | VStr s => negb (s =? "")%string
  | VArr _ | VObj _ => true
  end.

(** [x === y] and SameValueZero agree on the values of this model (there is
    no NaN and no negative zero).  Two arrays or two objects are the same
    only when they are the same reference; every array or object compared
    here comes from a different place of a parsed tree or from a literal,
    so the comparison is [false]. *)
Definition SameValueZero (x y : value) : bool :=
  match x, y with
  | VUndefined, VUndefined => true
  | VNull, VNull => true
  | VBool a, VBool b => Bool.eqb a b
  | VNum a, VNum b => (a =? b)
  | VStr a, VStr b => (a =? b)%string
  | _, _ => false
  end.

Definition strict_eq (x y : value) : bool := SameValueZero x y.

(** Own-property lookup in a property list. *)
Fixpoint lookup (k : string) (props : list (string * value)) : value :=
  match props with
  | [] => VUndefined
  | (k', v) :: rest => if (k' =? k)%string then v else lookup k rest
  end.

Definition is_digit (c : ascii) : bool :=
  ((48 <=? nat_of_ascii c) && (nat_of_ascii c <=? 57))%nat.

Fixpoint digits_value (s : string) (acc : nat) : option nat :=
  match s with
  | EmptyString => Some acc
  | String c r =>
      if is_digit c
      then digits_value r (10 * acc + (nat_of_ascii c - 48))%nat
      else None
  end.

(** A property key that is a canonical array index: ["0"], ["1"], ["27"]. *)
Definition array_index (k : string) : option nat :=
  match k with
  | EmptyString => None
  | String c EmptyString => digits_value k 0%nat
  | String c _ => if (nat_of_ascii c =? 48)%nat then None else digits_value k 0%nat
  end.

Definition string_at (s : string) (i : nat) : value :=
  match String.get i s with
  | Some c => VStr (String c EmptyString)
  | None => VUndefined
  end.

(** [v.k] and [v[k]] for the data properties the program reads ([type],
    [member], [fact], [length], [0], ...; none of them is a method of a
    built-in prototype).  Reading a property of [undefined] or [null]
    throws a TypeError; an absent property reads as [undefined]. *)
Definition get (v : value) (k : string) : result value :=
  match v with
  | VUndefined | VNull => raise TypeError
  | VObj props => ok (lookup k props)
  | VArr elems =>
      if (k =? "length")%string then ok (VNum (Z.of_nat (List.length elems)))
      else match array_index k with
           | Some i => ok (nth i elems VUndefined)
           | None => ok VUndefined
           end
  | VStr s =>
      if (k =? "length")%string then ok (VNum (Z.of_nat (String.length s)))
      else match array_index k with
           | Some i => ok (string_at s i)
           | None => ok VUndefined
           end
  | VBool _ | VNum _ => ok VUndefined
  end.

(** A chain of property reads, [v.k1.k2...]. *)
Fixpoint get_path (v : value) (ks : list string) : result value :=
  match ks with
  | [] => ok v
  | k :: rest => rbind (get v k) (fun v' => get_path v' rest)
  end.

(** [String.prototype.toLowerCase] on the ASCII letters; other code units
    are left as they are. *)
Definition lower_char (c : ascii) : ascii :=
  let n := nat_of_ascii c in
  if ((65 <=? n) && (n <=? 90))%nat then ascii_of_nat (n + 32) else c.

Fixpoint lower (s : string) : string :=
  match s with
  | EmptyString => EmptyString
  | String c r => String (lower_char c) (lower r)
  end.

(** [v.toLowerCase()]: only a string has the method. *)
Definition toLowerCase (v : value) : result string :=
  match v with
  | VStr s => ok (lower s)
  | _ => raise TypeError
  end.

(** [a.map(f)]: only an array has the method; an exception thrown by the
    callback stops the traversal. *)
Fixpoint map_result {A B} (f : A -> result B) (l : list A) : result (list B) :=
  match l with
  | [] => ok []
  | x :: rest =>
      rbind (f x) (fun y => rbind (map_result f rest) (fun ys => ok (y :: ys)))
  end.

Definition array_map {B} (a : value) (f : value -> result B) : result (list B) :=
  match a with
  | VArr elems => map_result f elems
  | _ => raise TypeError
  end.

(** [Array.prototype.includes]. *)
Definition includes (a : list value) (x : value) : bool :=
  existsb (fun y => SameValueZero y x) a.

(* ----------------------------------------------------------------- *)
(** *** [Map] and [Set] *)

(** A [Map] keeps its entries in the order in which their keys were first
    inserted; setting a key that is present replaces its value in place. *)
Definition JsMap : Type := list (value * value).

Fixpoint Map_set (m : JsMap) (k v : value) : JsMap :=
  match m with
  | [] => [(k, v)]
  | (k', v') :: rest =>
      if SameValueZero k' k then (k', v) :: rest
      else (k', v') :: Map_set rest k v
  end.

(** [new Map(entries)]. *)
Definition Map_new (entries : list (value * value)) : JsMap :=
  fold_left (fun m e => Map_set m (fst e) (snd e)) entries [].

(** [Array.from(m.values())]. *)
Definition Map_values (m : JsMap) : list value := map snd m.

(** A [Set] is used for membership only, so it is kept as the list of the
    values it was built from. *)
Definition JsSet : Type := list value.

(** [new Set(iterable)]: [undefined] and [null] give the empty set, an
    array its elements, a string its characters; anything else is not
    iterable. *)
Definition Set_new (iterable : value) : result JsSet :=
  match iterable with
  | VUndefined | VNull => ok []
  | VArr elems => ok elems
  | VStr s => ok (map (fun c => VStr (String c EmptyString)) (list_ascii_of_string s))
  | VBool _ | VNum _ | VObj _ => raise TypeError
  end.

Definition Set_has (s : JsSet) (x : value) : bool :=
  existsb (fun y => SameValueZero y x) s.

(* ================================================================= *)
(** ** The world: the facts file, the console and the event log *)

(** What the program does to the outside: each call of [fs.readFile] and
    [fs.writeFile] on the facts file and each [console.error], in order. *)
Inductive event : Type :=
| ReadFile
| WriteFile (data : string)
| ConsoleError (message : string).

(** [file] is the content of [FACTS_FILE], [None] when reading it fails (the
    file is missing or unreadable); [writable] tells whether writing it
    succeeds. *)
Record world : Type := mkWorld {
  file : option string;
  writable : bool;
  log : list event
}.

Definition emit (e : event) (w : world) : world :=
  {| file := file w; writable := writable w; log := log w ++ [e] |}.

(** An [async] function: a state transformer on the world that returns or
    throws. *)
Definition M (A : Type) : Type := world -> result A * world.

Definition ret {A} (a : A) : M A := fun w => (ok a, w).

Definition throw {A} (e : exn) : M A := fun w => (raise e, w).

Definition bind {A B} (c : M A) (k : A -> M B) : M B :=
  fun w =>
    match c w with
    | (inl e, w') => (inl e, w')
    | (inr a, w') => k a w'
    end.

(** A pure step that may throw. *)
Definition lift {A} (r : result A) : M A := fun w => (r, w).

(** [try { c } catch (error) { handler }]. *)
Definition try_catch {A} (c : M A) (handler : exn -> M A) : M A :=
  fun w =>
    match c w with
    | (inl e, w') => handler e w'
    | (inr a, w') => (inr a, w')
    end.

Declare Scope js_scope.
Delimit Scope js_scope with js.
Notation "x <- c ;; k" := (bind c (fun x => k))
  (at level 100, c at next level, right associativity) : js_scope.
Notation "c ;; k" := (bind c (fun _ => k))
  (at level 100, right associativity) : js_scope.
Notation "' p <- c ;; k" := (bind c (fun x => let 'p := x in k))
  (at level 100, p pattern, c at next level, right associativity) : js_scope.
Open Scope js_scope.

Definition console_error (message : string) : M unit :=
  fun w => (ok tt, emit (ConsoleError message) w).

(** [fs.readFile(FACTS_FILE)]. *)
Definition fs_readFile : M string :=
  fun w =>
    match file w with
    | Some data => (ok data, emit ReadFile w)
    | None => (raise (Error "ENOENT"), emit ReadFile w)
    end.

(** [fs.writeFile(FACTS_FILE, data)]: the whole content is replaced. *)
Definition fs_writeFile (data : string) : M unit :=
  fun w =>
    if writable w
    then (ok tt, {| file := Some data; writable := true; log := log w ++ [WriteFile data] |})
    else (raise (Error "EACCES"), emit (WriteFile data) w).

(* ================================================================= *)
(** ** The platform *)

(** The built-ins the program calls: [JSON.parse] ([None] when it throws a
    SyntaxError), [JSON.stringify], and [verifyKey] of discord-interactions,
    applied to the body, the signature and the timestamp (the public key is
    the fixed [process.env.DISCORD_PUBLIC_KEY]). *)
Class Platform : Type := {
  JSON_parse : string -> option value;
  JSON_stringify : value -> string;
  verifyKey : string -> string -> string -> bool
}.

(* ================================================================= *)
(** ** Responses *)

(** The body of a [Response]: a text, or the value a [JsonResponse] was
    built from, which is sent as its [JSON.stringify] text. *)
Inductive Body : Type :=
| Text (s : string)
| Json (v : value).

Record ResponseInit : Type := mkInit {
  init_status : option Z;
  init_headers : list (string * string)
}.

Record Response : Type := mkResponse {
  body : Body;
  status : Z;
  headers : list (string * string)
}.

(** [new Response(body, init)]: the status defaults to 200. *)
Definition new_Response (b : Body) (init : ResponseInit) : Response :=
  {| body := b;
     status := match init_status init with Some s => s | None => 200 end;
     headers := init_headers init |}.

(** [new JsonResponse(body, init)]: without [init] the JSON content type is
    set; an [init] that is given is used as it is. *)
Definition JsonResponse (b : value) (init : option ResponseInit) : Response :=
  let init :=
    match init with
    | Some i => i
    | None => {| init_status := None;
                 init_headers := [("content-type", "application/json;charset=UTF-8")] |}
    end in
  new_Response (Json b) init.

Definition with_status (s : Z) : option ResponseInit :=
  Some {| init_status := Some s; init_headers := [] |}.

(** The text that goes on the wire. *)
Definition body_text `{Platform} (r : Response) : string :=
  match body r with
  | Text s => s
  | Json v => JSON_stringify v
  end.

(* ================================================================= *)
(** ** [commands.js] *)

Record Command : Type := mkCommand {
  name : string;
  description : string
}.

Definition SELECT_COMMAND : Command :=
  {| name := "select"; description := "Select which of Ben's Facts to use!" |}.

Definition ADD_COMMAND : Command :=
  {| name := "add"; description := "Add a Ben's Fact!" |}.

(** The other [commands.js] of the repository declares a list command where
    this one declares [SELECT_COMMAND]; the server imports only
    [ADD_COMMAND] and [SELECT_COMMAND]. *)
Definition LIST_COMMAND : Command :=
  {| name := "list"; description := "List Ben's Facts!" |}.

(* ================================================================= *)
(** ** The access guard *)

(** [validateUserAccess(username)]: [None] is the [undefined] it returns for
    an allowed user, [Some r] the response it returns otherwise. *)
Definition validateUserAccess (username : value) : M (option Response) :=
  if negb (includes [VStr "LuggageMoose"; VStr "encryptoknight"] username)
  then
    console_error "Invalid user access" ;;
    ret (Some (JsonResponse (VObj [("error", VStr "Invalid user access")])
                            (with_status 403)))
  else ret None.

(** The response of the guard to a user who is not allowed. *)
Definition forbidden_response : Response :=
  JsonResponse (VObj [("error", VStr "Invalid user access")]) (with_status 403).

(* ================================================================= *)
(** ** The fact store *)

Section Store.
Context `{Platform}.

Definition JSON_parse_or_throw (data : string) : M value :=
  match JSON_parse data with
  | Some v => ret v
  | None => throw SyntaxError
  end.

(** [getFacts()] *)
Definition getFacts : M value :=
  try_catch
    (data <- fs_readFile ;;
     JSON_parse_or_throw data)
    (fun error =>
       console_error "Error reading facts file:" ;;
       ret (VArr [])).

(** The default value of a parameter: used when the argument is
    [undefined]. *)
Definition default_arg (arg dflt : value) : value :=
  match arg with
  | VUndefined => dflt
  | _ => arg
  end.

(** [storeFact(newFact, is_enabled = true)] *)
Definition storeFact (newFact is_enabled : value) : M unit :=
  let is_enabled := default_arg is_enabled (VBool true) in
  try_catch
    (facts <- getFacts ;;
     entries <- lift (array_map facts
                        (fun fact => rbind (get fact "fact") (fun k => ok (k, fact)))) ;;
     let factsAsMap :=
       Map_new (entries ++
                [(newFact, VObj [("fact", newFact); ("is_enabled", is_enabled)])]) in
     let dedupedFacts := Map_values factsAsMap in
     fs_writeFile (JSON_stringify (VArr dedupedFacts)))
    (fun error =>
       let message := "Error writing to facts file:" in
       console_error message ;;
       throw (Error message)).

(** [storeFacts(_newFacts)] *)
Definition storeFacts (_newFacts : value) : M unit :=
  try_catch
    (newFacts <- lift (Set_new _newFacts) ;;
     facts <- getFacts ;;
     entries <- lift (array_map facts
                        (fun fact =>
                           rbind (get fact "fact") (fun k =>
                           ok (k, VObj [("fact", k);
                                        ("is_enabled", VBool (Set_has newFacts k))])))) ;;
     let factsAsMap := Map_new entries in
     let dedupedFacts := Map_values factsAsMap in
     fs_writeFile (JSON_stringify (VArr dedupedFacts)))
    (fun error =>
       let message := "Error writing to facts file:" in
       console_error message ;;
       throw (Error message)).

End Store.

(* ================================================================= *)
(** ** The interaction router *)

(** The enumerations of discord-interactions that the server uses. *)
Module InteractionType.
Definition PING : Z := 1.
Definition APPLICATION_COMMAND : Z := 2.
Definition MESSAGE_COMPONENT : Z := 3.
Definition APPLICATION_COMMAND_AUTOCOMPLETE : Z := 4.
Definition MODAL_SUBMIT : Z := 5.
End InteractionType.

Module InteractionResponseType.
Definition PONG : Z := 1.
Definition CHANNEL_MESSAGE_WITH_SOURCE : Z := 4.
Definition MODAL : Z := 9.
End InteractionResponseType.

Module InteractionResponseFlags.
Definition EPHEMERAL : Z := Z.shiftl 1 6.
End InteractionResponseFlags.

Module MessageComponentTypes.
Definition ACTION_ROW : Z := 1.
Definition STRING_SELECT : Z := 3.
Definition INPUT_TEXT : Z := 4.
End MessageComponentTypes.

Module TextStyleTypes.
Definition PARAGRAPH : Z := 2.
End TextStyleTypes.

(** The part of a request the handler looks at: the two signature headers
    ([None] when [headers.get] returns [null]) and the body text. *)
Record Request : Type := mkRequest {
  x_signature_ed25519 : option string;
  x_signature_timestamp : option string;
  text : string
}.

(** [signature && timestamp]: a header that is absent or empty is falsy. *)
Definition header_truthy (h : option string) : bool :=
  match h with
  | Some s => negb (s =? "")%string
  | None => false
  end.

Definition header_text (h : option string) : string :=
  match h with
  | Some s => s
  | None => ""
  end.

(** The payload of the answer to the add command: the form. *)
Definition modal_payload : value :=
  VObj [("type", VNum InteractionResponseType.MODAL);
        ("data", VObj [
           ("custom_id", VStr "fact_modal");
           ("title", VStr "Add a cool Ben's Fact!");
           ("components", VArr [
              VObj [("type", VNum MessageComponentTypes.ACTION_ROW);
                    ("components", VArr [
                       VObj [("type", VNum MessageComponentTypes.INPUT_TEXT);
                             ("custom_id", VStr "fact");
                             ("style", VNum TextStyleTypes.PARAGRAPH);
                             ("label", VStr "A cool Ben's Fact");
                             ("min_length", VNum 1);
                             ("max_length", VNum 1000);
                             ("required", VBool true)]])]])])].

(** The payload of the answer to the select command, from [facts.length]
    and the mapped options. *)
Definition select_payload (max_values : value) (options : list value) : value :=
  VObj [("type", VNum InteractionResponseType.CHANNEL_MESSAGE_WITH_SOURCE);
        ("data", VObj [
           ("components", VArr [
              VObj [("type", VNum MessageComponentTypes.ACTION_ROW);
                    ("components", VArr [
                       VObj [("type", VNum MessageComponentTypes.STRING_SELECT);
                             ("custom_id", VStr "select_facts");
                             ("placeholder",
                              VStr "Choose which of Ben's facts will make the cut!");
                             ("min_values", VNum 1);
                             ("max_values", max_values);
                             ("options", VArr options)]])]]);
           ("flags", VNum InteractionResponseFlags.EPHEMERAL)])].

(** The payload of a confirmation message. *)
Definition message_payload (content : string) : value :=
  VObj [("type", VNum InteractionResponseType.CHANNEL_MESSAGE_WITH_SOURCE);
        ("data", VObj [("content", VStr content);
                       ("flags", VNum InteractionResponseFlags.EPHEMERAL)])].

Definition unknown_type_response : Response :=
  JsonResponse (VObj [("error", VStr "Unknown Type")]) (with_status 400).

Section Router.
Context `{Platform}.

(** [verifyDiscordRequest(request)]: the pair of [isValid] and
    [interaction] ([undefined] when the request is not valid). *)
Definition verifyDiscordRequest (request : Request) : M (bool * value) :=
  let signature := x_signature_ed25519 request in
  let timestamp := x_signature_timestamp request in
  let body := text request in
  let isValidRequest :=
    header_truthy signature && header_truthy timestamp &&
    verifyKey body (header_text signature) (header_text timestamp) in
  if negb isValidRequest then ret (false, VUndefined)
  else
    interaction <- JSON_parse_or_throw body ;;
    ret (true, interaction).

(** [router.post('/', async (request) => ...)] *)
Definition router_post (request : Request) : M Response :=
  '(isValid, interaction) <- verifyDiscordRequest request ;;
  if negb isValid || negb (truthy interaction) then
    ret (new_Response (Text "Bad request signature.")
                      {| init_status := Some 401; init_headers := [] |})
  else
  type <- lift (get interaction "type") ;;
  if strict_eq type (VNum InteractionType.PING) then
    ret (JsonResponse (VObj [("type", VNum InteractionResponseType.PONG)]) None)
  else if strict_eq type (VNum InteractionType.APPLICATION_COMMAND) then
    username <- lift (get_path interaction ["member"; "user"; "username"]) ;;
    userAccessResponse <- validateUserAccess username ;;
    match userAccessResponse with
    | Some response => ret response
    | None =>
        commandName <- lift (get_path interaction ["data"; "name"]) ;;
        command <- lift (toLowerCase commandName) ;;
        if (command =? lower (name ADD_COMMAND))%string then
          ret (JsonResponse modal_payload None)
        else if (command =? lower (name SELECT_COMMAND))%string then
          facts <- getFacts ;;
          max_values <- lift (get facts "length") ;;
          options <- lift (array_map facts (fun entry =>
                       rbind (get entry "fact") (fun fact =>
                       rbind (get entry "is_enabled") (fun is_enabled =>
                       ok (VObj [("label", fact); ("value", fact);
                                 ("default", is_enabled)]))))) ;;
          ret (JsonResponse (select_payload max_values options) None)
        else ret unknown_type_response
    end
  else if strict_eq type (VNum InteractionType.MODAL_SUBMIT) then
    username <- lift (get_path interaction ["member"; "user"; "username"]) ;;
    userAccessResponse <- validateUserAccess username ;;
    match userAccessResponse with
    | Some response => ret response
    | None =>
        fact <- lift (get_path interaction
                        ["data"; "components"; "0"; "components"; "0"; "value"]) ;;
        storeFact fact VUndefined ;;
        ret (JsonResponse
               (message_payload "Fact added! They better hold on to their butts...")
               None)
    end
  else if strict_eq type (VNum InteractionType.MESSAGE_COMPONENT) then
    username <- lift (get_path interaction ["member"; "user"; "username"]) ;;
    userAccessResponse <- validateUserAccess username ;;
    match userAccessResponse with
    | Some response => ret response
    | None =>
        facts <- lift (get_path interaction ["data"; "values"]) ;;
        storeFacts facts ;;
        ret (JsonResponse (message_payload "Facts updated!") None)
    end
  else
    console_error "Unknown Type" ;;
    ret unknown_type_response.

End Router.

(* ================================================================= *)
(** ** Facts as the store writes them *)

(** A fact of the data model: the object [{fact, is_enabled}] with a string
    and a boolean. *)
Record Fact : Type := mkFact {
  fact : string;
  is_enabled : bool
}.

Definition fact_value (f : Fact) : value :=
  VObj [("fact", VStr (fact f)); ("is_enabled", VBool (is_enabled f))].

Definition facts_value (fs : list Fact) : value :=
  VArr (map fact_value fs).

(** What [new Map] does to a collection of facts keyed by their texts: a
    fact whose text is already there takes the place of the earlier one. *)
Fixpoint upsert (fs : list Fact) (f : Fact) : list Fact :=
  match fs with
  | [] => [f]
  | g :: rest =>
      if (fact g =? fact f)%string then f :: rest else g :: upsert rest f
  end.

Definition dedupe (fs : list Fact) : list Fact := fold_left upsert fs [].

(** The entry of the [Map] that the store builds for a fact. *)
Definition fact_entry (f : Fact) : value * value := (VStr (fact f), fact_value f).

(** The fact with its flag recomputed from the selected texts. *)
Definition reselect (selected : list string) (f : Fact) : Fact :=
  {| fact := fact f;
     is_enabled := existsb (fun t => (t =? fact f)%string) selected |}.

(** The option of the select menu that shows a fact. *)
Definition fact_option (f : Fact) : value :=
  VObj [("label", VStr (fact f)); ("value", VStr (fact f));
        ("default", VBool (is_enabled f))].

Section Harness.
Context `{Platform}.

(** The store holds the collection [fs]: that is what [getFacts] loads. *)
Definition holds (w : world) (fs : list Fact) : Prop :=
  fst (getFacts w) = ok (facts_value fs).

(** The [is_enabled] argument of a call: [None] when it is left out. *)
Definition enabled_arg (enabled : option bool) : value :=
  match enabled with
  | Some b => VBool b
  | None => VUndefined
  end.

(** The flag a call stores. *)
Definition enabled_of (enabled : option bool) : bool :=
  match enabled with
  | Some b => b
  | None => true
  end.

(** A sequence of [storeFact] calls, one after the other. *)
Fixpoint storeFact_each (calls : list (string * option bool)) : M unit :=
  match calls with
  | [] => ret tt
  | (t, enabled) :: rest =>
      storeFact (VStr t) (enabled_arg enabled) ;;
      storeFact_each rest
  end.

(** The text [storeFact] writes for the fact [t] on a store holding
    [fs]. *)
Definition added_text (fs : list Fact) (t : string) (enabled : option bool) : string :=
  JSON_stringify (facts_value (dedupe (fs ++ [mkFact t (enabled_of enabled)]))).

(** The text [storeFacts] writes on a store holding [fs]. *)
Definition reselected_text (fs : list Fact) (selected : list string) : string :=
  JSON_stringify (facts_value (dedupe (map (reselect selected) fs))).

(** How a write attempt ends, from the world after the read. *)
Definition written (data : string) (w1 : world) : result unit * world :=
  if writable w1
  then (ok tt, {| file := Some data; writable := true;
                  log := log w1 ++ [WriteFile data] |})
  else (raise (Error "Error writing to facts file:"),
        emit (ConsoleError "Error writing to facts file:")
             (emit (WriteFile data) w1)).

(** The collection after a sequence of [storeFact] calls on a store
    holding [fs]. *)
Definition store_after (calls : list (string * option bool)) (fs : list Fact)
  : list Fact :=
  fold_left (fun fs c => dedupe (fs ++ [mkFact (fst c) (enabled_of (snd c))]))
            calls fs.

(** The two store mutations. *)
Inductive mutation : Type :=
| AddOne (t : string) (enabled : option bool)
| SetEnabledSet (selected : list string).

Definition mutate (m : mutation) : M unit :=
  match m with
  | AddOne t enabled => storeFact (VStr t) (enabled_arg enabled)
  | SetEnabledSet selected => storeFacts (VArr (map VStr selected))
  end.

(** The request passes verification and its body parses to
    [interaction]. *)
Definition delivers (request : Request) (interaction : value) : Prop :=
  header_truthy (x_signature_ed25519 request) = true /\
  header_truthy (x_signature_timestamp request) = true /\
  verifyKey (text request)
            (header_text (x_signature_ed25519 request))
            (header_text (x_signature_timestamp request)) = true /\
  JSON_parse (text request) = Some interaction.

End Harness.

(** The answer to the handshake. *)
Definition pong_response : Response :=
  JsonResponse (VObj [("type", VNum InteractionResponseType.PONG)]) None.

(** The events of a log that touch the facts file. *)
Definition is_file_event (e : event) : bool :=
  match e with
  | ReadFile | WriteFile _ => true
  | ConsoleError _ => false
  end.

(** The response carries the ephemeral flag. *)
Definition ephemeral (r : Response) : Prop :=
  exists payload,
    body r = Json payload /\
    get_path payload ["data"; "flags"] = ok (VNum InteractionResponseFlags.EPHEMERAL).

(* ================================================================= *)
(** ** A reference platform *)

(** An instance of [Platform] to run the program on concrete requests and
    files: a JSON printer and a recursive-descent JSON reader for the values
    of this model (numbers without fraction or exponent, escapes up to
    code unit 255), and a toy signature check. *)
Module Reference.

Definition dquote : ascii := "034"%char.

Definition hex_digit (n : nat) : ascii :=
  match String.get n "0123456789abcdef" with
  | Some c => c
  | None => "0"%char
  end.

(** The code units below 32. *)
Definition is_control (c : ascii) : bool :=
  match c with
  | Ascii _ _ _ _ _ false false false => true
  | _ => false
  end.

Definition escape_char (c : ascii) : string :=
  if (c =? dquote)%char then String "\" (String dquote "")
  else if (c =? "\")%char then "\\"
  else if (c =? "008")%char then "\b"
  else if (c =? "009")%char then "\t"
  else if (c =? "010")%char then "\n"
  else if (c =? "012")%char then "\f"
  else if (c =? "013")%char then "\r"
  else if is_control c then
    "\u00" ++ String (hex_digit (nat_of_ascii c / 16))
                     (String (hex_digit (nat_of_ascii c mod 16)) "")
  else String c "".

Fixpoint escape (s : string) : string :=
  match s with
  | EmptyString => ""
  | String c r => escape_char c ++ escape r
  end.

Definition quote (s : string) : string :=
  String dquote (escape s ++ String dquote "").

Definition print_Z (n : Z) : string := NilZero.string_of_int (Z.to_int n).

(** [JSON.stringify]: a property whose value is [undefined] is left out,
    an [undefined] array element is printed as [null]. *)
Fixpoint stringify (v : value) : string :=
  match v with
  | VUndefined | VNull => "null"
  | VBool true => "true"
  | VBool false => "false"
  | VNum n => print_Z n
  | VStr s => quote s
  | VArr elems => "[" ++ String.concat "," (map stringify elems) ++ "]"
  | VObj props =>
      "{" ++ String.concat ","
        ((fix members (ps : list (string * value)) : list string :=
            match ps with
            | [] => []
            | (k, VUndefined) :: rest => members rest
            | (k, x) :: rest => (quote k ++ ":" ++ stringify x) :: members rest
            end) props) ++ "}"
  end.

Definition is_ws (c : ascii) : bool :=
  ((c =? " ") || (c =? "009") || (c =? "010") || (c =? "013"))%char.

Fixpoint skip_ws (s : string) : string :=
  match s with
  | EmptyString => ""
  | String c r => if is_ws c then skip_ws r else s
  end.

Fixpoint strip_prefix (p s : string) : option string :=
  match p, s with
  | EmptyString, _ => Some s
  | String a p', String b s' => if (a =? b)%char then strip_prefix p' s' else None
  | String _ _, EmptyString => None
  end.

Definition hex_value (c : ascii) : option nat :=
  let n := nat_of_ascii c in
  if ((48 <=? n) && (n <=? 57))%nat then Some (n - 48)%nat
  else if ((97 <=? n) && (n <=? 102))%nat then Some (n - 87)%nat
  else if ((65 <=? n) && (n <=? 70))%nat then Some (n - 55)%nat
  else None.

Definition hex4 (a b c d : ascii) : option nat :=
  match hex_value a, hex_value b, hex_value c, hex_value d with
  | Some x, Some y, Some z, Some t => Some (((x * 16 + y) * 16 + z) * 16 + t)%nat
  | _, _, _, _ => None
  end.

Definition unescape (e : ascii) : option ascii :=
  if (e =? dquote)%char then Some dquote
  else if (e =? "\")%char then Some "\"%char
  else if (e =? "/")%char then Some "/"%char
  else if (e =? "b")%char then Some "008"%char
  else if (e =? "t")%char then Some "009"%char
  else if (e =? "n")%char then Some "010"%char
  else if (e =? "f")%char then Some "012"%char
  else if (e =? "r")%char then Some "013"%char
  else None.

Definition push (c : ascii) (r : option (string * string)) : option (string * string) :=
  match r with
  | Some (s, rest) => Some (String c s, rest)
  | None => None
  end.

(** The characters of a string literal, after its opening quote. *)
Fixpoint parse_chars (s : string) : option (string * string) :=
  match s with
  | EmptyString => None
  | String c r =>
      if (c =? dquote)%char then Some ("", r)
      else if (c =? "\")%char then
        match r with
        | EmptyString => None
        | String e r' =>
            if (e =? "u")%char then
              match r' with
              | String h1 (String h2 (String h3 (String h4 r''))) =>
                  match hex4 h1 h2 h3 h4 with
                  | Some n =>
                      if (n <? 256)%nat then push (ascii_of_nat n) (parse_chars r'')
                      else None
                  | None => None
                  end
              | _ => None
              end
            else
              match unescape e with
              | Some ch => push ch (parse_chars r')
              | None => None
              end
        end
      else if is_control c then None
      else push c (parse_chars r)
  end.

Fixpoint take_digits (s : string) (acc : Z) : Z * string :=
  match s with
  | EmptyString => (acc, "")
  | String c r =>
      if is_digit c
      then take_digits r (10 * acc + Z.of_nat (nat_of_ascii c - 48))
      else (acc, s)
  end.

(** After the digits: a fraction, an exponent or one more digit (after a
    leading zero) is refused. *)
Definition number_ends (rest : string) : bool :=
  match rest with
  | EmptyString => true
  | String d _ =>
      negb (is_digit d || (d =? ".") || (d =? "e") || (d =? "E"))%char
  end.

Definition parse_digits (s : string) : option (Z * string) :=
  match s with
  | EmptyString => None
  | String c r =>
      if is_digit c then
        let '(n, rest) := if (c =? "0")%char then (0, r) else take_digits s 0 in
        if number_ends rest then Some (n, rest) else None
      else None
  end.

Definition parse_number (s : string) : option (Z * string) :=
  match s with
  | String c r =>
      if (c =? "-")%char then
        match parse_digits r with
        | Some (n, rest) => Some (- n, rest)
        | None => None
        end
      else parse_digits s
  | EmptyString => None
  end.

(** A later member with the key of an earlier one replaces its value. *)
Fixpoint put (props : list (string * value)) (k : string) (v : value)
  : list (string * value) :=
  match props with
  | [] => [(k, v)]
  | (k', v') :: rest =>
      if (k' =? k)%string then (k', v) :: rest else (k', v') :: put rest k v
  end.

Definition object_of (members : list (string * value)) : value :=
  VObj (fold_left (fun props m => put props (fst m) (snd m)) members []).

Definition literal (p : string) (v : value) (s : string) : option (value * string) :=
  match strip_prefix p s with
  | Some rest => Some (v, rest)
  | None => None
  end.

Fixpoint parse_value (fuel : nat) (s : string) : option (value * string) :=
  match fuel with
  | O => None
  | S fuel =>
      match skip_ws s with
      | EmptyString => None
      | String c r =>
          if (c =? "n")%char then literal "null" VNull (String c r)
          else if (c =? "t")%char then literal "true" (VBool true) (String c r)
          else if (c =? "f")%char then literal "false" (VBool false) (String c r)
          else if (c =? dquote)%char then
            match parse_chars r with
            | Some (str, rest) => Some (VStr str, rest)
            | None => None
            end
          else if (c =? "[")%char then
            match skip_ws r with
            | String d r' =>
                if (d =? "]")%char then Some (VArr [], r')
                else
                  match parse_elements fuel r with
                  | Some (vs, rest) => Some (VArr vs, rest)
                  | None => None
                  end
            | EmptyString => None
            end
          else if (c =? "{")%char then
            match skip_ws r with
            | String d r' =>
                if (d =? "}")%char then Some (VObj [], r')
                else
                  match parse_members fuel r with
                  | Some (ms, rest) => Some (object_of ms, rest)
                  | None => None
                  end
            | EmptyString => None
            end
          else
            match parse_number (String c r) with
            | Some (z, rest) => Some (VNum z, rest)
            | None => None
            end
      end
  end
with parse_elements (fuel : nat) (s : string) : option (list value * string) :=
  match fuel with
  | O => None
  | S fuel =>
      match parse_value fuel s with
      | Some (v, rest) =>
          match skip_ws rest with
          | String d r =>
              if (d =? ",")%char then
                match parse_elements fuel r with
                | Some (vs, rest') => Some (v :: vs, rest')
                | None => None
                end
              else if (d =? "]")%char then Some ([v], r)
              else None
          | EmptyString => None
          end
      | None => None
      end
  end
with parse_members (fuel : nat) (s : string)
  : option (list (string * value) * string) :=
  match fuel with
  | O => None
  | S fuel =>
      match skip_ws s with
      | String q r =>
          if (q =? dquote)%char then
            match parse_chars r with
            | Some (k, rest) =>
                match skip_ws rest with
                | String colon r1 =>
                    if (colon =? ":")%char then
                      match parse_value fuel r1 with
                      | Some (v, rest2) =>
                          match skip_ws rest2 with
                          | String d r2 =>
                              if (d =? ",")%char then
                                match parse_members fuel r2 with
                                | Some (ms, rest') => Some ((k, v) :: ms, rest')
                                | None => None
                                end
                              else if (d =? "}")%char then Some ([(k, v)], r2)
                              else None
                          | EmptyString => None
                          end
                      | None => None
                      end
                    else None
                | EmptyString => None
                end
            | None => None
            end
          else None
      | EmptyString => None
      end
  end.

(** [JSON.parse]: one value, then nothing but white space. *)
Definition parse (s : string) : option value :=
  match parse_value (S (String.length s)) s with
  | Some (v, rest) =>
      match skip_ws rest with
      | EmptyString => Some v
      | String _ _ => None
      end
  | None => None
  end.

(** The toy signature of a body at a timestamp. *)
Definition sign (body timestamp : string) : string :=
  "signed:" ++ timestamp ++ ":" ++ body.

Definition verify (body signature timestamp : string) : bool :=
  (signature =? sign body timestamp)%string.

(** JSON text written with apostrophes for the double quotes. *)
Fixpoint json_text (s : string) : string :=
  match s with
  | EmptyString => ""
  | String c r =>
      String (if (c =? "'")%char then dquote else c) (json_text r)
  end.

(** A request with a valid signature. *)
Definition signed (body : string) : Request :=
  {| x_signature_ed25519 := Some (sign body "0");
     x_signature_timestamp := Some "0";
     text := body |}.

End Reference.

#[export] Instance reference_platform : Platform := {|
  JSON_parse := Reference.parse;
  JSON_stringify := Reference.stringify;
  verifyKey := Reference.verify
|}.


(* ================================================================= *)
(** ** Sample requests and stores *)

Module Sample.

(** A store whose file has the given content, and one with no file. *)
Definition store (content : string) : world :=
  {| file := Some (Reference.json_text content); writable := true; log := [] |}.

Definition no_file : world :=
  {| file := None; writable := true; log := [] |}.

Definition tea : string := "[{'fact':'Ben likes tea','is_enabled':true}]".

Definition a_and_b : string :=
  "[{'fact':'A','is_enabled':true},{'fact':'B','is_enabled':false}]".

(** An interaction of the given type, user and data, as a value and as a
    signed request. *)
Definition interaction (type : Z) (username : string) (data : value) : value :=
  VObj [("type", VNum type);
        ("member", VObj [("user", VObj [("username", VStr username)])]);
        ("data", data)].

Definition request (body : string) : Request :=
  Reference.signed (Reference.json_text body).

Definition command (username commandName : string) : Request :=
  request ("{'type':2,'member':{'user':{'username':'" ++ username ++
           "'}},'data':{'name':'" ++ commandName ++ "'}}").

Definition submission (username factText : string) : Request :=
  request ("{'type':5,'member':{'user':{'username':'" ++ username ++
           "'}},'data':{'components':[{'components':[{'value':'" ++ factText ++
           "'}]}]}}").

Definition selection_of_B (username : string) : Request :=
  request ("{'type':3,'member':{'user':{'username':'" ++ username ++
           "'}},'data':{'values':['B']}}").

Definition autocompletion (username : string) : Request :=
  request ("{'type':4,'member':{'user':{'username':'" ++ username ++
           "'}},'data':{'name':'add'}}").

Definition ping : Request := request "{'type':1}".

End Sample.

(* ================================================================= *)
(** ** Further responses and requests *)

(** The answer to a request that does not pass verification. *)
Definition bad_signature_response : Response :=
  new_Response (Text "Bad request signature.")
               {| init_status := Some 401; init_headers := [] |}.

(** What [storeFact] and [storeFacts] throw from their [catch]. *)
Definition store_error : exn := Error "Error writing to facts file:".

(** The headers of a [JsonResponse] built without [init]. *)
Definition json_headers : list (string * string) :=
  [("content-type", "application/json;charset=UTF-8")].


Module Probe.

(** A store that cannot be written. *)
Definition read_only (content : string) : world :=
  {| file := Some (Reference.json_text content); writable := false; log := [] |}.


(** An interaction with no [member], as for a direct message. *)
Definition direct_message : Request :=
  Sample.request "{'type':2,'user':{'username':'LuggageMoose'},'data':{'name':'add'}}".


(** A selection whose [values] is a number. *)
Definition selection_of_number (username : string) : Request :=
  Sample.request ("{'type':3,'member':{'user':{'username':'" ++ username ++
                  "'}},'data':{'values':7}}").

(** An interaction whose [type] is a string. *)
Definition typed_by_string : Request :=
  Sample.request "{'type':'2','member':{'user':{'username':'LuggageMoose'}}}".

End Probe.

(* ================================================================= *)
(** * Properties *)

Unset Implicit Arguments.

(* ================================================================= *)
(** ** Reading the store *)

Section StoreRead.
Context `{Platform}.

Lemma getFacts_parsed w data v :
  file w = Some data ->
  JSON_parse data = Some v ->
  getFacts w = (ok v, emit ReadFile w).
Proof.
  intros Hfile Hparse.
  unfold getFacts, try_catch, bind, fs_readFile, JSON_parse_or_throw.
  rewrite Hfile. cbn. rewrite Hparse. reflexivity.
Qed.

Lemma getFacts_missing w :
  file w = None ->
  getFacts w =
  (ok (VArr []), emit (ConsoleError "Error reading facts file:") (emit ReadFile w)).
Proof.
  intros Hfile.
  unfold getFacts, try_catch, bind, fs_readFile.
  rewrite Hfile. reflexivity.
Qed.

Lemma getFacts_corrupt w data :
  file w = Some data ->
  JSON_parse data = None ->
  getFacts w =
  (ok (VArr []), emit (ConsoleError "Error reading facts file:") (emit ReadFile w)).
Proof.
  intros Hfile Hparse.
  unfold getFacts, try_catch, bind, fs_readFile, JSON_parse_or_throw.
  rewrite Hfile. cbn. rewrite Hparse. reflexivity.
Qed.

(** [getFacts] never throws, never changes the file, and adds exactly one
    read of the file to the log, followed by console output at most. *)
Lemma getFacts_total w :
  exists v tail,
    getFacts w = (ok v, {| file := file w; writable := writable w;
                           log := log w ++ ReadFile :: tail |}) /\
    forallb (fun e => negb (is_file_event e)) tail = true.
Proof.
  unfold getFacts, try_catch, bind, fs_readFile, JSON_parse_or_throw,
    console_error, ret, throw, emit.
  destruct (file w) as [data|]; cbn.
  - destruct (JSON_parse data) as [v|]; cbn.
    + exists v, []. split; reflexivity.
    + exists (VArr []), [ConsoleError "Error reading facts file:"].
      rewrite <- app_assoc. split; reflexivity.
  - exists (VArr []), [ConsoleError "Error reading facts file:"].
    rewrite <- app_assoc. split; reflexivity.
Qed.

(** C3.  When the facts file is missing, or its content does not parse as
    JSON, [getFacts] returns the empty array and throws nothing; the file
    is left as it was and the failure is logged on the console. *)
Theorem getFacts_missing_or_corrupt_returns_empty w :
  (file w = None \/
   exists data, file w = Some data /\ JSON_parse data = None) ->
  fst (getFacts w) = ok (VArr []) /\
  file (snd (getFacts w)) = file w /\
  log (snd (getFacts w)) =
    (log w ++ [ReadFile; ConsoleError "Error reading facts file:"])%list.
Proof.
  intros [Hmissing | (data & Hfile & Hparse)].
  - rewrite (getFacts_missing _ Hmissing). cbn.
    rewrite <- app_assoc. auto.
  - rewrite (getFacts_corrupt _ _ Hfile Hparse). cbn.
    rewrite <- app_assoc. auto.
Qed.

End StoreRead.

(* ================================================================= *)
(** ** The access guard *)

Lemma includes_allow_list (username : string) :
  includes [VStr "LuggageMoose"; VStr "encryptoknight"] (VStr username) = true <->
  username = "LuggageMoose" \/ username = "encryptoknight".
Proof.
  unfold includes, existsb, SameValueZero.
  rewrite !orb_true_iff, !String.eqb_eq.
  intuition (auto; discriminate).
Qed.

Lemma validateUserAccess_allowed username w :
  includes [VStr "LuggageMoose"; VStr "encryptoknight"] username = true ->
  validateUserAccess username w = (ok None, w).
Proof.
  intros Hin. unfold validateUserAccess. rewrite Hin. reflexivity.
Qed.

Lemma validateUserAccess_denied username w :
  includes [VStr "LuggageMoose"; VStr "encryptoknight"] username = false ->
  validateUserAccess username w =
  (ok (Some forbidden_response), emit (ConsoleError "Invalid user access") w).
Proof.
  intros Hin. unfold validateUserAccess. rewrite Hin. reflexivity.
Qed.

(** The guard answers from the user name alone. *)
Lemma validateUserAccess_cases username w :
  (includes [VStr "LuggageMoose"; VStr "encryptoknight"] username = true /\
   validateUserAccess username w = (ok None, w)) \/
  (includes [VStr "LuggageMoose"; VStr "encryptoknight"] username = false /\
   validateUserAccess username w =
   (ok (Some forbidden_response), emit (ConsoleError "Invalid user access") w)).
Proof.
  destruct (includes [VStr "LuggageMoose"; VStr "encryptoknight"] username) eqn:Hin.
  - left. split; [reflexivity | now apply validateUserAccess_allowed].
  - right. split; [reflexivity | now apply validateUserAccess_denied].
Qed.

(** C4.  [validateUserAccess] lets the user through (returns [undefined],
    here [None]) exactly when the user name is ["LuggageMoose"] or
    ["encryptoknight"]; for every other string, the empty one included, it
    returns the 403 response. *)
Theorem validateUserAccess_allow_list (username : string) w :
  (fst (validateUserAccess (VStr username) w) = ok None <->
   username = "LuggageMoose" \/ username = "encryptoknight") /\
  (fst (validateUserAccess (VStr username) w) = ok (Some forbidden_response) <->
   ~ (username = "LuggageMoose" \/ username = "encryptoknight")) /\
  fst (validateUserAccess (VStr "") w) = ok (Some forbidden_response).
Proof.
  split; [|split].
  - rewrite <- includes_allow_list.
    destruct (validateUserAccess_cases (VStr username) w) as [[Hin ->] | [Hin ->]];
      rewrite Hin; unfold ok; cbn; intuition congruence.
  - rewrite <- includes_allow_list.
    destruct (validateUserAccess_cases (VStr username) w) as [[Hin ->] | [Hin ->]];
      rewrite Hin; unfold ok; cbn; intuition congruence.
  - reflexivity.
Qed.

(* ================================================================= *)
(** ** The router *)

Lemma get_number_is_object (v : value) (k : string) (n : Z) :
  (k =? "length")%string = false ->
  get v k = ok (VNum n) ->
  truthy v = true.
Proof.
  intros Hk. destruct v; unfold get, ok, raise; try discriminate; try reflexivity.
  - rewrite Hk. destruct (array_index k); unfold string_at;
      try destruct (String.get _ _); discriminate.
Qed.

Section RouterProps.
Context `{Platform}.

Lemma verifyDiscordRequest_delivers request interaction w :
  delivers request interaction ->
  verifyDiscordRequest request w = (ok (true, interaction), w).
Proof.
  intros (Hsig & Hts & Hkey & Hparse).
  unfold verifyDiscordRequest, JSON_parse_or_throw, bind.
  rewrite Hsig, Hts, Hkey, Hparse. reflexivity.
Qed.

(** A delivered interaction with a numeric [type] passes the signature
    test and reaches the dispatch on its type. *)
Lemma router_post_enter request interaction n w :
  delivers request interaction ->
  get interaction "type" = ok (VNum n) ->
  router_post request w =
  (if n =? InteractionType.PING then ret pong_response
   else if n =? InteractionType.APPLICATION_COMMAND then
    username <- lift (get_path interaction ["member"; "user"; "username"]) ;;
    userAccessResponse <- validateUserAccess username ;;
    match userAccessResponse with
    | Some response => ret response
    | None =>
        commandName <- lift (get_path interaction ["data"; "name"]) ;;
        command <- lift (toLowerCase commandName) ;;
        if (command =? "add")%string then
          ret (JsonResponse modal_payload None)
        else if (command =? "select")%string then
          facts <- getFacts ;;
          max_values <- lift (get facts "length") ;;
          options <- lift (array_map facts (fun entry =>
                       rbind (get entry "fact") (fun fact =>
                       rbind (get entry "is_enabled") (fun is_enabled =>
                       ok (VObj [("label", fact); ("value", fact);
                                 ("default", is_enabled)]))))) ;;
          ret (JsonResponse (select_payload max_values options) None)
        else ret unknown_type_response
    end
  else if n =? InteractionType.MODAL_SUBMIT then
    username <- lift (get_path interaction ["member"; "user"; "username"]) ;;
    userAccessResponse <- validateUserAccess username ;;
    match userAccessResponse with
    | Some response => ret response
    | None =>
        fact <- lift (get_path interaction
                        ["data"; "components"; "0"; "components"; "0"; "value"]) ;;
        storeFact fact VUndefined ;;
        ret (JsonResponse
               (message_payload "Fact added! They better hold on to their butts...")
               None)
    end
  else if n =? InteractionType.MESSAGE_COMPONENT then
    username <- lift (get_path interaction ["member"; "user"; "username"]) ;;
    userAccessResponse <- validateUserAccess username ;;
    match userAccessResponse with
    | Some response => ret response
    | None =>
        facts <- lift (get_path interaction ["data"; "values"]) ;;
        storeFacts facts ;;
        ret (JsonResponse (message_payload "Facts updated!") None)
    end
  else
    console_error "Unknown Type" ;;
    ret unknown_type_response) w.
Proof.
  intros Hdel Htype.
  unfold router_post. unfold bind at 1.
  rewrite (verifyDiscordRequest_delivers _ _ _ Hdel).
  unfold ok at 1. cbv beta iota.
  rewrite (get_number_is_object interaction "type" _ eq_refl Htype).
  cbn [negb orb]. unfold bind at 1. unfold lift at 1. rewrite Htype.
  unfold ok at 1. cbv beta iota. cbn [strict_eq SameValueZero].
  reflexivity.
Qed.

Lemma guard_allows username w :
  fst (validateUserAccess username w) = ok None ->
  validateUserAccess username w = (ok None, w).
Proof.
  destruct (validateUserAccess_cases username w) as [[_ Heq] | [_ Heq]];
    rewrite Heq; unfold ok; cbn; congruence.
Qed.

Lemma guard_denies username w :
  fst (validateUserAccess username w) <> ok None ->
  validateUserAccess username w =
  (ok (Some forbidden_response), emit (ConsoleError "Invalid user access") w).
Proof.
  destruct (validateUserAccess_cases username w) as [[_ Heq] | [_ Heq]];
    rewrite Heq; unfold ok; cbn; congruence.
Qed.

(** What an application command of an allowed user is answered with. *)
Lemma router_post_command request interaction username commandName w :
  delivers request interaction ->
  get interaction "type" = ok (VNum InteractionType.APPLICATION_COMMAND) ->
  get_path interaction ["member"; "user"; "username"] = ok username ->
  fst (validateUserAccess username w) = ok None ->
  get_path interaction ["data"; "name"] = ok (VStr commandName) ->
  router_post request w =
  (if (lower commandName =? "add")%string then
     ret (JsonResponse modal_payload None)
   else if (lower commandName =? "select")%string then
     facts <- getFacts ;;
     max_values <- lift (get facts "length") ;;
     options <- lift (array_map facts (fun entry =>
                  rbind (get entry "fact") (fun fact =>
                  rbind (get entry "is_enabled") (fun is_enabled =>
                  ok (VObj [("label", fact); ("value", fact);
                            ("default", is_enabled)]))))) ;;
     ret (JsonResponse (select_payload max_values options) None)
   else ret unknown_type_response) w.
Proof.
  intros Hdel Htype Huser Hallowed Hname.
  rewrite (router_post_enter _ _ _ w Hdel Htype).
  cbn [Z.eqb InteractionType.PING InteractionType.APPLICATION_COMMAND Pos.eqb].
  unfold bind at 1. unfold lift at 1. rewrite Huser. unfold ok at 1.
  unfold bind at 1. rewrite (guard_allows _ _ Hallowed). unfold ok at 1.
  unfold bind at 1. unfold lift at 1. rewrite Hname. unfold ok at 1.
  unfold bind at 1. unfold lift at 1. unfold toLowerCase, ok at 1.
  reflexivity.
Qed.

(** The guard stops a user who is not allowed before anything else is
    done. *)
Lemma router_post_denied request interaction n username w :
  delivers request interaction ->
  get interaction "type" = ok (VNum n) ->
  In n [InteractionType.APPLICATION_COMMAND; InteractionType.MODAL_SUBMIT;
        InteractionType.MESSAGE_COMPONENT] ->
  get_path interaction ["member"; "user"; "username"] = ok username ->
  fst (validateUserAccess username w) <> ok None ->
  router_post request w =
  (ok forbidden_response, emit (ConsoleError "Invalid user access") w).
Proof.
  intros Hdel Htype Hin Huser Hdenied.
  rewrite (router_post_enter _ _ _ w Hdel Htype).
  destruct Hin as [<- | [<- | [<- | []]]];
    cbn [Z.eqb InteractionType.PING InteractionType.APPLICATION_COMMAND
         InteractionType.MODAL_SUBMIT InteractionType.MESSAGE_COMPONENT Pos.eqb];
    unfold bind at 1; unfold lift at 1; rewrite Huser; unfold ok at 1;
    unfold bind at 1; rewrite (guard_denies _ _ Hdenied); reflexivity.
Qed.

(** An interaction of a type the handler does not know is answered with
    the Unknown Type error, without a look at the user or at the store. *)
Lemma router_post_unrecognized request interaction n w :
  delivers request interaction ->
  get interaction "type" = ok (VNum n) ->
  ~ In n [InteractionType.PING; InteractionType.APPLICATION_COMMAND;
          InteractionType.MODAL_SUBMIT; InteractionType.MESSAGE_COMPONENT] ->
  router_post request w =
  (ok unknown_type_response, emit (ConsoleError "Unknown Type") w).
Proof.
  intros Hdel Htype Hnotin.
  rewrite (router_post_enter _ _ _ w Hdel Htype).
  cbn [In] in Hnotin.
  destruct (Z.eqb_spec n InteractionType.PING); [subst n; tauto|].
  destruct (Z.eqb_spec n InteractionType.APPLICATION_COMMAND); [subst n; tauto|].
  destruct (Z.eqb_spec n InteractionType.MODAL_SUBMIT); [subst n; tauto|].
  destruct (Z.eqb_spec n InteractionType.MESSAGE_COMPONENT); [subst n; tauto|].
  reflexivity.
Qed.

(** C5.  An interaction of one of the types other than PING
    (APPLICATION_COMMAND, MODAL_SUBMIT, MESSAGE_COMPONENT) whose user the
    access guard refuses is answered with the 403 "Invalid user access"
    response, and the store is not touched: the facts file is as before
    and the log has no new read or write of it. *)
Theorem denied_user_gets_403_without_store_access
    request interaction n username w :
  delivers request interaction ->
  get interaction "type" = ok (VNum n) ->
  In n [InteractionType.APPLICATION_COMMAND; InteractionType.MODAL_SUBMIT;
        InteractionType.MESSAGE_COMPONENT] ->
  get_path interaction ["member"; "user"; "username"] = ok username ->
  fst (validateUserAccess username w) <> ok None ->
  fst (router_post request w) = ok forbidden_response /\
  status forbidden_response = 403 /\
  body forbidden_response = Json (VObj [("error", VStr "Invalid user access")]) /\
  file (snd (router_post request w)) = file w /\
  filter is_file_event (log (snd (router_post request w))) =
  filter is_file_event (log w).
Proof.
  intros Hdel Htype Hin Huser Hdenied.
  rewrite (router_post_denied _ _ _ _ _ Hdel Htype Hin Huser Hdenied).
  cbn [fst snd emit file log].
  repeat split.
  rewrite filter_app. cbn. apply app_nil_r.
Qed.

(** The answer to the select command is the select message or an
    exception, never an error response. *)
Lemma select_reply_shape w :
  let reply :=
    (facts <- getFacts ;;
     max_values <- lift (get facts "length") ;;
     options <- lift (array_map facts (fun entry =>
                  rbind (get entry "fact") (fun fact =>
                  rbind (get entry "is_enabled") (fun is_enabled =>
                  ok (VObj [("label", fact); ("value", fact);
                            ("default", is_enabled)]))))) ;;
     ret (JsonResponse (select_payload max_values options) None)) w in
  (exists e, fst reply = inl e) \/
  (exists max_values options,
      fst reply = ok (JsonResponse (select_payload max_values options) None)).
Proof.
  cbv zeta. unfold bind, lift, ret.
  destruct (getFacts w) as [[e | facts] w1];
    [left; eexists; reflexivity|].
  destruct (get facts "length") as [e | max_values];
    [left; eexists; reflexivity|].
  destruct (array_map facts _) as [e | options];
    [left; eexists; reflexivity|].
  right. eexists. eexists. reflexivity.
Qed.

Lemma map_result_fact_options fs :
  map_result (fun entry =>
                rbind (get entry "fact") (fun fact =>
                rbind (get entry "is_enabled") (fun is_enabled =>
                ok (VObj [("label", fact); ("value", fact);
                          ("default", is_enabled)]))))
             (map fact_value fs) =
  ok (map fact_option fs).
Proof.
  induction fs as [|f fs IH]; [reflexivity|].
  cbn [map map_result]. rewrite IH. reflexivity.
Qed.

(** The answer to the select command when the store holds [fs]. *)
Lemma select_reply_holds w fs :
  holds w fs ->
  (facts <- getFacts ;;
   max_values <- lift (get facts "length") ;;
   options <- lift (array_map facts (fun entry =>
                rbind (get entry "fact") (fun fact =>
                rbind (get entry "is_enabled") (fun is_enabled =>
                ok (VObj [("label", fact); ("value", fact);
                          ("default", is_enabled)]))))) ;;
   ret (JsonResponse (select_payload max_values options) None)) w =
  (ok (JsonResponse
         (select_payload (VNum (Z.of_nat (List.length fs))) (map fact_option fs))
         None),
   snd (getFacts w)).
Proof.
  unfold holds. intros Hholds.
  unfold bind at 1.
  destruct (getFacts w) as [r w1]. cbn [fst snd] in *. subst r.
  unfold ok at 1. unfold bind, lift, ret.
  unfold facts_value, array_map.
  rewrite map_result_fact_options.
  cbn. rewrite length_map. reflexivity.
Qed.

(** C6.  The select command of an allowed user, on a store that holds the
    facts [fs], is answered with a message whose single row holds a single
    string-select menu with one option per stored fact, in order, with
    label and value the fact's text and default its enabled flag, with
    [min_values] 1 and [max_values] the number of stored facts. *)
Theorem select_command_lists_every_fact
    request interaction username commandName w fs :
  delivers request interaction ->
  get interaction "type" = ok (VNum InteractionType.APPLICATION_COMMAND) ->
  get_path interaction ["member"; "user"; "username"] = ok username ->
  fst (validateUserAccess username w) = ok None ->
  get_path interaction ["data"; "name"] = ok (VStr commandName) ->
  lower commandName = "select" ->
  holds w fs ->
  exists payload row menu,
    fst (router_post request w) = ok (JsonResponse payload None) /\
    get_path payload ["data"; "components"] = ok (VArr [row]) /\
    get row "components" = ok (VArr [menu]) /\
    get menu "type" = ok (VNum MessageComponentTypes.STRING_SELECT) /\
    get menu "options" = ok (VArr (map fact_option fs)) /\
    get menu "min_values" = ok (VNum 1) /\
    get menu "max_values" = ok (VNum (Z.of_nat (List.length fs))).
Proof.
  intros Hdel Htype Huser Hallowed Hname Hlower Hholds.
  rewrite (router_post_command _ _ _ _ _ Hdel Htype Huser Hallowed Hname).
  rewrite Hlower. cbn [String.eqb Ascii.eqb Bool.eqb].
  rewrite (select_reply_holds _ _ Hholds). cbn [fst].
  unfold select_payload.
  eexists. eexists. eexists.
  split; [reflexivity|].
  split; [reflexivity|].
  split; [reflexivity|].
  repeat split.
Qed.

(** C7, as the code has it.  An application command of an allowed user is
    answered with the Unknown Type error exactly when its lower-cased name
    is neither ["add"] nor ["select"]: these two are the commands the
    handler serves. *)
Theorem application_commands_served_are_add_and_select
    request interaction username commandName w :
  delivers request interaction ->
  get interaction "type" = ok (VNum InteractionType.APPLICATION_COMMAND) ->
  get_path interaction ["member"; "user"; "username"] = ok username ->
  fst (validateUserAccess username w) = ok None ->
  get_path interaction ["data"; "name"] = ok (VStr commandName) ->
  (fst (router_post request w) = ok unknown_type_response <->
   lower commandName <> name ADD_COMMAND /\
   lower commandName <> name SELECT_COMMAND).
Proof.
  intros Hdel Htype Huser Hallowed Hname.
  rewrite (router_post_command _ _ _ _ _ Hdel Htype Huser Hallowed Hname).
  cbn [name ADD_COMMAND SELECT_COMMAND].
  destruct (String.eqb_spec (lower commandName) "add") as [Hadd | Hadd].
  { split; [discriminate | tauto]. }
  destruct (String.eqb_spec (lower commandName) "select") as [Hsel | Hsel].
  { split; [|tauto]. intros Hreply. exfalso.
    destruct (select_reply_shape w) as [(e & He) | (m & o & Hok)];
      cbv zeta in *; rewrite Hreply in *; discriminate. }
  split; [tauto | reflexivity].
Qed.

(** The list command is an application command like any other that is
    neither add nor select. *)
Lemma router_post_list_command request interaction username w :
  delivers request interaction ->
  get interaction "type" = ok (VNum InteractionType.APPLICATION_COMMAND) ->
  get_path interaction ["member"; "user"; "username"] = ok username ->
  fst (validateUserAccess username w) = ok None ->
  get_path interaction ["data"; "name"] = ok (VStr (name LIST_COMMAND)) ->
  router_post request w = (ok unknown_type_response, w).
Proof.
  intros Hdel Htype Huser Hallowed Hname.
  rewrite (router_post_command _ _ _ _ _ Hdel Htype Huser Hallowed Hname).
  reflexivity.
Qed.

(** C10.  The dispatch on the command name ignores case: an application
    command of an allowed user whose name lower-cases to ["add"] or to
    ["select"] gets the result, and leaves the world, that the command
    with the lower-case name gets. *)
Theorem command_name_dispatch_ignores_case
    request interaction username commandName
    request' interaction' username' w :
  delivers request interaction ->
  get interaction "type" = ok (VNum InteractionType.APPLICATION_COMMAND) ->
  get_path interaction ["member"; "user"; "username"] = ok username ->
  fst (validateUserAccess username w) = ok None ->
  get_path interaction ["data"; "name"] = ok (VStr commandName) ->
  delivers request' interaction' ->
  get interaction' "type" = ok (VNum InteractionType.APPLICATION_COMMAND) ->
  get_path interaction' ["member"; "user"; "username"] = ok username' ->
  fst (validateUserAccess username' w) = ok None ->
  get_path interaction' ["data"; "name"] = ok (VStr (lower commandName)) ->
  lower commandName = name ADD_COMMAND \/
  lower commandName = name SELECT_COMMAND ->
  router_post request w = router_post request' w.
Proof.
  intros Hdel Htype Huser Hallowed Hname Hdel' Htype' Huser' Hallowed' Hname' Hcase.
  rewrite (router_post_command _ _ _ _ _ Hdel Htype Huser Hallowed Hname).
  rewrite (router_post_command _ _ _ _ _ Hdel' Htype' Huser' Hallowed' Hname').
  destruct Hcase as [-> | ->]; reflexivity.
Qed.

(** C8, as the code has it.  A response of the router is marked ephemeral
    unless it is the PONG acknowledgment, an error response (a status
    other than 200) or the form that answers the add command: the select
    message and the two confirmation messages carry the flag. *)
Theorem responses_are_ephemeral_except_pong_errors_and_form request w r :
  fst (router_post request w) = ok r ->
  ephemeral r \/
  r = pong_response \/
  status r <> 200 \/
  r = JsonResponse modal_payload None.
Proof.
  unfold router_post, validateUserAccess, console_error, bind, lift, ret, ok.
  intros Hreply. cbv beta iota in Hreply.
  repeat match type of Hreply with
         | context [match ?x with _ => _ end] =>
             lazymatch x with
             | context [match _ with _ => _ end] => fail
             | _ => destruct x; cbv beta iota in Hreply
             end
         end;
    cbn [fst] in Hreply; unfold ok in Hreply;
    try discriminate Hreply;
    injection Hreply as <-;
    first [ left; eexists; split; reflexivity
          | right; left; reflexivity
          | right; right; left; cbn; discriminate
          | right; right; right; reflexivity ].
Qed.

End RouterProps.

(* ================================================================= *)
(** ** Collections keyed by text *)

Lemma upsert_In fs f g :
  In g (upsert fs f) -> g = f \/ In g fs.
Proof.
  induction fs as [|h rest IH]; cbn.
  - intros [<- | []]. now left.
  - destruct (fact h =? fact f)%string; cbn; intuition.
Qed.

Lemma upsert_texts fs f t :
  In t (map fact (upsert fs f)) <-> In t (map fact fs) \/ t = fact f.
Proof.
  induction fs as [|h rest IH]; cbn.
  - intuition.
  - destruct (String.eqb_spec (fact h) (fact f)) as [Heq | Hneq]; cbn.
    + rewrite Heq. intuition.
    + rewrite IH. intuition.
Qed.

Lemma upsert_NoDup fs f :
  NoDup (map fact fs) -> NoDup (map fact (upsert fs f)).
Proof.
  induction fs as [|h rest IH]; cbn; intros Hnodup.
  - constructor; [intros [] | constructor].
  - inversion Hnodup as [|x l Hnotin Hrest]; subst.
    destruct (String.eqb_spec (fact h) (fact f)) as [Heq | Hneq]; cbn.
    + rewrite <- Heq. now constructor.
    + constructor; [|now apply IH].
      rewrite upsert_texts. intuition.
Qed.

Lemma upsert_key fs f g :
  NoDup (map fact fs) ->
  In g (upsert fs f) -> fact g = fact f -> g = f.
Proof.
  induction fs as [|h rest IH]; cbn; intros Hnodup Hin Hkey.
  - destruct Hin as [<- | []]. reflexivity.
  - inversion Hnodup as [|x l Hnotin Hrest]; subst.
    destruct (String.eqb_spec (fact h) (fact f)) as [Heq | Hneq]; cbn in Hin.
    + destruct Hin as [<- | Hin]; [reflexivity|].
      exfalso. apply Hnotin. rewrite Heq, <- Hkey. now apply in_map.
    + destruct Hin as [<- | Hin]; [congruence | now apply IH].
Qed.

Lemma upsert_fresh fs f :
  ~ In (fact f) (map fact fs) -> upsert fs f = (fs ++ [f])%list.
Proof.
  induction fs as [|h rest IH]; cbn; intros Hfresh; [reflexivity|].
  destruct (String.eqb_spec (fact h) (fact f)) as [Heq | Hneq].
  - exfalso. apply Hfresh. now left.
  - rewrite IH; [reflexivity | tauto].
Qed.

Lemma fold_upsert_In fs acc g :
  In g (fold_left upsert fs acc) -> In g acc \/ In g fs.
Proof.
  revert acc. induction fs as [|h rest IH]; cbn; intros acc Hin; [now left|].
  apply IH in Hin. destruct Hin as [Hin | Hin]; [|tauto].
  apply upsert_In in Hin. intuition.
Qed.

Lemma fold_upsert_texts fs acc t :
  In t (map fact (fold_left upsert fs acc)) <->
  In t (map fact acc) \/ In t (map fact fs).
Proof.
  revert acc. induction fs as [|h rest IH]; cbn; intros acc; [tauto|].
  rewrite IH, upsert_texts. intuition.
Qed.

Lemma fold_upsert_NoDup fs acc :
  NoDup (map fact acc) -> NoDup (map fact (fold_left upsert fs acc)).
Proof.
  revert acc. induction fs as [|h rest IH]; cbn; intros acc Hnodup; [assumption|].
  apply IH. now apply upsert_NoDup.
Qed.

Lemma fold_upsert_distinct fs acc :
  NoDup (map fact (acc ++ fs)) -> fold_left upsert fs acc = (acc ++ fs)%list.
Proof.
  revert acc. induction fs as [|h rest IH]; cbn; intros acc Hnodup.
  - now rewrite app_nil_r.
  - rewrite upsert_fresh.
    + rewrite IH; rewrite <- app_assoc; [reflexivity | exact Hnodup].
    + rewrite map_app in Hnodup. cbn in Hnodup.
      apply NoDup_remove_2 in Hnodup.
      intros Hin. apply Hnodup. apply in_or_app. now left.
Qed.

Lemma dedupe_In fs g : In g (dedupe fs) -> In g fs.
Proof.
  intros Hin. apply fold_upsert_In in Hin. destruct Hin as [[] | Hin]. exact Hin.
Qed.

Lemma dedupe_texts fs t : In t (map fact (dedupe fs)) <-> In t (map fact fs).
Proof.
  unfold dedupe. rewrite fold_upsert_texts. cbn. tauto.
Qed.

Lemma dedupe_NoDup fs : NoDup (map fact (dedupe fs)).
Proof.
  apply fold_upsert_NoDup. constructor.
Qed.

(** A collection with pairwise distinct texts is left as it is. *)
Lemma dedupe_distinct fs : NoDup (map fact fs) -> dedupe fs = fs.
Proof.
  intros Hnodup. unfold dedupe. now rewrite fold_upsert_distinct.
Qed.

Lemma dedupe_snoc fs f : dedupe (fs ++ [f]) = upsert (dedupe fs) f.
Proof.
  unfold dedupe. now rewrite fold_left_app.
Qed.

Lemma Map_set_fact_entry acc f :
  Map_set (map fact_entry acc) (VStr (fact f)) (fact_value f) =
  map fact_entry (upsert acc f).
Proof.
  induction acc as [|g rest IH]; cbn; [reflexivity|].
  destruct (String.eqb_spec (fact g) (fact f)) as [Heq | Hneq]; cbn.
  - unfold fact_entry at 2. now rewrite Heq.
  - now rewrite IH.
Qed.

Lemma fold_Map_set_fact_entries fs acc :
  fold_left (fun m e => Map_set m (fst e) (snd e)) (map fact_entry fs)
            (map fact_entry acc) =
  map fact_entry (fold_left upsert fs acc).
Proof.
  revert acc. induction fs as [|f rest IH]; cbn; intros acc; [reflexivity|].
  rewrite Map_set_fact_entry. apply IH.
Qed.

Lemma Map_new_fact_entries fs :
  Map_values (Map_new (map fact_entry fs)) = map fact_value (dedupe fs).
Proof.
  unfold Map_new, Map_values, dedupe.
  pose proof (fold_Map_set_fact_entries fs []) as Hfold.
  cbn [map] in Hfold.
  etransitivity; [apply (f_equal (map snd)); exact Hfold|].
  rewrite map_map. reflexivity.
Qed.

(* ================================================================= *)
(** ** Writing the store *)

Lemma default_enabled_arg enabled :
  default_arg (enabled_arg enabled) (VBool true) = VBool (enabled_of enabled).
Proof.
  destruct enabled; reflexivity.
Qed.

Lemma array_map_fact_entries fs :
  array_map (facts_value fs)
            (fun fact => rbind (get fact "fact") (fun k => ok (k, fact))) =
  ok (map fact_entry fs).
Proof.
  unfold facts_value, array_map.
  induction fs as [|f rest IH]; [reflexivity|].
  cbn [map map_result]. rewrite IH. reflexivity.
Qed.

Lemma Set_has_strings selected t :
  Set_has (map VStr selected) (VStr t) = existsb (fun s => (s =? t)%string) selected.
Proof.
  unfold Set_has. induction selected as [|s rest IH]; [reflexivity|].
  cbn. now rewrite IH.
Qed.

Lemma array_map_reselect selected fs :
  array_map (facts_value fs)
            (fun fact =>
               rbind (get fact "fact") (fun k =>
               ok (k, VObj [("fact", k);
                            ("is_enabled", VBool (Set_has (map VStr selected) k))]))) =
  ok (map fact_entry (map (reselect selected) fs)).
Proof.
  unfold facts_value, array_map.
  induction fs as [|f rest IH]; [reflexivity|].
  cbn [map map_result]. rewrite IH.
  cbn. rewrite Set_has_strings. reflexivity.
Qed.

Section StoreProps.
Context `{Platform}.

Lemma holds_getFacts w fs :
  holds w fs ->
  exists tail,
    getFacts w = (ok (facts_value fs),
                  {| file := file w; writable := writable w;
                     log := log w ++ ReadFile :: tail |}) /\
    forallb (fun e => negb (is_file_event e)) tail = true.
Proof.
  unfold holds. intros Hholds.
  destruct (getFacts_total w) as (v & tail & Heq & Htail).
  rewrite Heq in Hholds. cbn in Hholds. injection Hholds as ->.
  exists tail. split; assumption.
Qed.

Lemma storeFact_run w fs t enabled :
  holds w fs ->
  storeFact (VStr t) (enabled_arg enabled) w =
  written (added_text fs t enabled) (snd (getFacts w)).
Proof.
  intros Hholds.
  destruct (holds_getFacts w fs Hholds) as (tail & Hget & _).
  unfold storeFact, try_catch. unfold bind at 1. rewrite Hget.
  unfold ok at 1. cbv beta iota. unfold bind at 1. unfold lift at 1.
  rewrite array_map_fact_entries. unfold ok at 1. cbv beta iota zeta.
  rewrite default_enabled_arg.
  change (VStr t, VObj [("fact", VStr t); ("is_enabled", VBool (enabled_of enabled))])
    with (fact_entry (mkFact t (enabled_of enabled))).
  change [fact_entry (mkFact t (enabled_of enabled))]
    with (map fact_entry [mkFact t (enabled_of enabled)]).
  rewrite <- map_app, Map_new_fact_entries.
  unfold written, added_text, facts_value, fs_writeFile. cbn [snd writable].
  destruct (writable w); reflexivity.
Qed.

Lemma storeFacts_run w fs selected :
  holds w fs ->
  storeFacts (VArr (map VStr selected)) w =
  written (reselected_text fs selected) (snd (getFacts w)).
Proof.
  intros Hholds.
  destruct (holds_getFacts w fs Hholds) as (tail & Hget & _).
  unfold storeFacts, try_catch. unfold bind at 1. unfold lift at 1.
  cbn [Set_new]. unfold ok at 1. cbv beta iota.
  unfold bind at 1. rewrite Hget.
  unfold ok at 1. cbv beta iota. unfold bind at 1. unfold lift at 1.
  rewrite array_map_reselect. unfold ok at 1. cbv beta iota zeta.
  rewrite Map_new_fact_entries.
  unfold written, reselected_text, facts_value, fs_writeFile. cbn [snd writable].
  destruct (writable w); reflexivity.
Qed.

End StoreProps.

(* ================================================================= *)
(** ** Sequences of additions *)

Lemma store_after_snoc calls c fs :
  store_after (calls ++ [c]) fs =
  upsert (dedupe (store_after calls fs)) (mkFact (fst c) (enabled_of (snd c))).
Proof.
  unfold store_after. rewrite fold_left_app. cbn [fold_left].
  apply dedupe_snoc.
Qed.

Lemma store_after_texts calls fs t :
  In t (map fact (store_after calls fs)) <->
  In t (map fact fs) \/ In t (map fst calls).
Proof.
  revert fs. induction calls as [|c rest IH]; intros fs.
  - cbn. tauto.
  - change (store_after (c :: rest) fs)
      with (store_after rest (dedupe (fs ++ [mkFact (fst c) (enabled_of (snd c))]))).
    rewrite IH, dedupe_texts, map_app, in_app_iff. cbn. intuition.
Qed.

Lemma store_after_NoDup calls fs :
  calls <> [] -> NoDup (map fact (store_after calls fs)).
Proof.
  intros Hne. destruct (exists_last Hne) as (rest & c & ->).
  rewrite store_after_snoc. apply upsert_NoDup, dedupe_NoDup.
Qed.

(** Every fact that a call has written carries the flag of the last call
    for its text. *)
Lemma store_after_last_call calls fs f :
  In f (store_after calls fs) ->
  In (fact f) (map fst calls) ->
  exists before enabled after,
    calls = (before ++ (fact f, enabled) :: after)%list /\
    ~ In (fact f) (map fst after) /\
    is_enabled f = enabled_of enabled.
Proof.
  induction calls as [|[t enabled] rest IH] using rev_ind; [intros _ []|].
  rewrite store_after_snoc. cbn [fst snd]. intros Hin Hcalled.
  destruct (string_dec (fact f) t) as [Heq | Hneq].
  - apply upsert_key in Hin; [|apply dedupe_NoDup | exact Heq].
    subst f. cbn [fact is_enabled].
    exists rest, enabled, []. cbn. tauto.
  - apply upsert_In in Hin. destruct Hin as [-> | Hin]; [now cbn in Hneq|].
    apply dedupe_In in Hin.
    rewrite map_app, in_app_iff in Hcalled. cbn in Hcalled.
    destruct Hcalled as [Hcalled | [Heq | []]]; [|congruence].
    destruct (IH Hin Hcalled) as (before & en & after & -> & Hlast & Hflag).
    exists before, en, (after ++ [(t, enabled)])%list.
    rewrite <- app_assoc. split; [reflexivity|]. split; [|exact Hflag].
    rewrite map_app, in_app_iff. cbn. intuition congruence.
Qed.

Section StoreLaws.
Context `{Platform}.

(** What the program relies on: [JSON.parse] reads back the collections
    that [JSON.stringify] prints. *)
Hypothesis JSON_roundtrip :
  forall fs, JSON_parse (JSON_stringify (facts_value fs)) = Some (facts_value fs).

Lemma holds_written w fs :
  file w = Some (JSON_stringify (facts_value fs)) -> holds w fs.
Proof.
  intros Hfile. unfold holds.
  rewrite (getFacts_parsed _ _ _ Hfile (JSON_roundtrip fs)). reflexivity.
Qed.

Lemma getFacts_writable w : writable (snd (getFacts w)) = writable w.
Proof.
  destruct (getFacts_total w) as (v & tail & -> & _). reflexivity.
Qed.

(** A successful write leaves the written text in the file and as the
    last event of the log. *)
Lemma written_ok data w1 :
  fst (written data w1) = ok tt ->
  file (snd (written data w1)) = Some data /\
  writable (snd (written data w1)) = true /\
  log (snd (written data w1)) = (log w1 ++ [WriteFile data])%list.
Proof.
  unfold written. destruct (writable w1); cbn; [auto | discriminate].
Qed.

Lemma written_writable data w1 :
  writable w1 = true -> fst (written data w1) = ok tt.
Proof.
  unfold written. intros ->. reflexivity.
Qed.

Lemma storeFact_each_run calls w fs :
  writable w = true ->
  holds w fs ->
  fst (storeFact_each calls w) = ok tt /\
  holds (snd (storeFact_each calls w)) (store_after calls fs).
Proof.
  revert w fs. induction calls as [|[t enabled] rest IH]; intros w fs Hwritable Hholds.
  - cbn. auto.
  - cbn [storeFact_each]. unfold bind.
    rewrite (storeFact_run w fs t enabled Hholds).
    assert (Hok : fst (written (added_text fs t enabled) (snd (getFacts w))) = ok tt).
    { apply written_writable. now rewrite getFacts_writable. }
    destruct (written_ok _ _ Hok) as (Hfile & Hwritable' & _).
    destruct (written (added_text fs t enabled) (snd (getFacts w))) as [r w2].
    cbn [fst snd] in *. subst r. unfold ok at 1. cbv beta iota.
    apply (IH w2); [exact Hwritable' | now apply holds_written].
Qed.

(** C1.  After a sequence of [storeFact] calls with the texts [t1..tn],
    on a writable store that held only facts with texts among them (the
    empty store, for one), the store holds exactly the distinct texts
    among [t1..tn], each once, and the flag of each stored fact is the
    [is_enabled] argument of the last call for its text, [true] where the
    argument was left out.  (On a platform with [JSON_roundtrip].) *)
Theorem storeFact_each_keeps_last_write_per_text calls w fs0 :
  writable w = true ->
  holds w fs0 ->
  (forall f, In f fs0 -> In (fact f) (map fst calls)) ->
  exists fs,
    fst (storeFact_each calls w) = ok tt /\
    holds (snd (storeFact_each calls w)) fs /\
    NoDup (map fact fs) /\
    (forall t, In t (map fact fs) <-> In t (map fst calls)) /\
    (forall f, In f fs ->
       exists before enabled after,
         calls = (before ++ (fact f, enabled) :: after)%list /\
         ~ In (fact f) (map fst after) /\
         is_enabled f = enabled_of enabled).
Proof.
  intros Hwritable Hholds Hrestricted.
  destruct (storeFact_each_run calls w fs0 Hwritable Hholds) as (Hok & Hafter).
  exists (store_after calls fs0).
  assert (Htexts : forall t, In t (map fact (store_after calls fs0)) <->
                             In t (map fst calls)).
  { intros t. rewrite store_after_texts. split; [|tauto].
    intros [Hin | Hin]; [|exact Hin].
    apply in_map_iff in Hin. destruct Hin as (f & <- & Hin). now apply Hrestricted. }
  repeat split; try assumption; try apply Htexts.
  - destruct calls as [|c rest].
    + destruct fs0 as [|f rest]; [constructor|].
      destruct (Hrestricted f (or_introl eq_refl)).
    + apply store_after_NoDup. discriminate.
  - intros f Hin. apply (store_after_last_call calls fs0 f Hin).
    apply Htexts. now apply in_map.
Qed.

(** C2.  [storeFacts] with the selected texts, on a writable store that
    holds facts with pairwise distinct texts (the invariant of a stored
    collection), leaves the sequence of stored texts as it is and sets the
    flag of every stored fact to whether its text is among the selected
    ones.  (On a platform with [JSON_roundtrip].) *)
Theorem storeFacts_keeps_texts_and_sets_flags selected w fs :
  writable w = true ->
  holds w fs ->
  NoDup (map fact fs) ->
  exists fs',
    fst (storeFacts (VArr (map VStr selected)) w) = ok tt /\
    holds (snd (storeFacts (VArr (map VStr selected)) w)) fs' /\
    map fact fs' = map fact fs /\
    (forall f, In f fs' -> (is_enabled f = true <-> In (fact f) selected)).
Proof.
  intros Hwritable Hholds Hnodup.
  rewrite (storeFacts_run w fs selected Hholds).
  assert (Htexts : map fact (map (reselect selected) fs) = map fact fs).
  { rewrite map_map. reflexivity. }
  unfold reselected_text.
  rewrite dedupe_distinct by (now rewrite Htexts).
  set (data := JSON_stringify (facts_value (map (reselect selected) fs))).
  assert (Hok : fst (written data (snd (getFacts w))) = ok tt).
  { apply written_writable. now rewrite getFacts_writable. }
  destruct (written_ok _ _ Hok) as (Hfile & _ & _).
  exists (map (reselect selected) fs).
  split; [exact Hok|]. split; [now apply holds_written|]. split; [exact Htexts|].
  intros f Hin. apply in_map_iff in Hin. destruct Hin as (g & <- & _).
  cbn [reselect is_enabled fact]. rewrite existsb_exists. split.
  - intros (t & Hin & Heq). apply String.eqb_eq in Heq. now subst t.
  - intros Hin. exists (fact g). split; [exact Hin | apply String.eqb_refl].
Qed.

(** For any collection, distinct texts or not: the stored texts are the
    same set afterwards, the duplicates collapsed. *)
Lemma storeFacts_any_collection selected w fs :
  writable w = true ->
  holds w fs ->
  fst (storeFacts (VArr (map VStr selected)) w) = ok tt /\
  holds (snd (storeFacts (VArr (map VStr selected)) w))
        (dedupe (map (reselect selected) fs)) /\
  (forall t, In t (map fact (dedupe (map (reselect selected) fs))) <->
             In t (map fact fs)).
Proof.
  intros Hwritable Hholds.
  rewrite (storeFacts_run w fs selected Hholds).
  assert (Hok : fst (written (reselected_text fs selected) (snd (getFacts w))) = ok tt).
  { apply written_writable. now rewrite getFacts_writable. }
  destruct (written_ok _ _ Hok) as (Hfile & _ & _).
  split; [exact Hok|]. split; [now apply holds_written|].
  intros t. rewrite dedupe_texts, map_map. reflexivity.
Qed.

(** C9.  After a successful store mutation ([storeFact] or [storeFacts])
    on a store that holds a collection of facts, [getFacts] returns the
    collection that the mutation wrote: the one whose text is the last
    write in the log and the content of the file.  The two collections are
    equal as sequences, so also as sets of pairs of a text and a flag.
    (On a platform with [JSON_roundtrip].) *)
Theorem mutation_then_getFacts_returns_written_collection m w fs :
  holds w fs ->
  fst (mutate m w) = ok tt ->
  exists collection before,
    log (snd (mutate m w)) =
      (before ++ [WriteFile (JSON_stringify (facts_value collection))])%list /\
    file (snd (mutate m w)) = Some (JSON_stringify (facts_value collection)) /\
    fst (getFacts (snd (mutate m w))) = ok (facts_value collection).
Proof.
  intros Hholds.
  destruct m as [t enabled | selected]; cbn [mutate].
  - rewrite (storeFact_run w fs t enabled Hholds). intros Hok.
    destruct (written_ok _ _ Hok) as (Hfile & _ & Hlog).
    exists (dedupe (fs ++ [mkFact t (enabled_of enabled)])),
           (log (snd (getFacts w))).
    split; [exact Hlog|]. split; [exact Hfile|].
    now apply holds_written.
  - rewrite (storeFacts_run w fs selected Hholds). intros Hok.
    destruct (written_ok _ _ Hok) as (Hfile & _ & Hlog).
    exists (dedupe (map (reselect selected) fs)), (log (snd (getFacts w))).
    split; [exact Hlog|]. split; [exact Hfile|].
    now apply holds_written.
Qed.

End StoreLaws.

(* ================================================================= *)
(** ** The reference platform reads back what it prints *)

Module ReferenceProps.
Import Reference.

Lemma append_assoc (s1 s2 s3 : string) : (s1 ++ s2) ++ s3 = s1 ++ (s2 ++ s3).
Proof.
  induction s1 as [|c r IH]; cbn; [reflexivity | now rewrite IH].
Qed.

Lemma length_append (s1 s2 : string) :
  String.length (s1 ++ s2) = (String.length s1 + String.length s2)%nat.
Proof.
  induction s1 as [|c r IH]; cbn; [reflexivity | now rewrite IH].
Qed.

(** A printed string literal is read back, whatever follows its closing
    quote. *)
Lemma parse_chars_escape s rest :
  parse_chars (escape s ++ String dquote rest) = Some (s, rest).
Proof.
  induction s as [|c r IH]; [reflexivity|].
  cbn [escape]. rewrite append_assoc.
  destruct c as [[] [] [] [] [] [] [] []];
    match goal with
    | |- context [escape_char ?c] =>
        let e := eval vm_compute in (escape_char c) in
        change (escape_char c) with e
    end;
    cbn; rewrite IH; reflexivity.
Qed.

Lemma stringify_fact f rest :
  stringify (fact_value f) ++ rest =
  json_text "{'fact':'" ++ escape (fact f) ++
  String dquote (json_text (if is_enabled f then ",'is_enabled':true}"
                            else ",'is_enabled':false}") ++ rest).
Proof.
  destruct f as [t [|]]; cbn; rewrite !append_assoc; reflexivity.
Qed.

Lemma parse_value_fact n f rest :
  (4 <= n)%nat ->
  parse_value n (stringify (fact_value f) ++ rest) = Some (fact_value f, rest).
Proof.
  intros Hn.
  destruct n as [|[|[|[|n]]]]; try lia.
  rewrite stringify_fact.
  destruct f as [t b]. cbn [fact is_enabled].
  cbn. rewrite parse_chars_escape.
  destruct b; cbn; reflexivity.
Qed.

Lemma stringify_fact_length f : (3 <= String.length (stringify (fact_value f)))%nat.
Proof.
  destruct f as [t b]. cbn. lia.
Qed.

Lemma concat_facts_length f fs :
  (List.length fs + 3 <=
   String.length (String.concat "," (map stringify (map fact_value (f :: fs)))))%nat.
Proof.
  revert f. induction fs as [|g rest IH]; intros f.
  - cbn [map String.concat List.length]. apply stringify_fact_length.
  - change (String.concat "," (map stringify (map fact_value (f :: g :: rest))))
      with (stringify (fact_value f) ++ "," ++
            String.concat "," (map stringify (map fact_value (g :: rest)))).
    rewrite !length_append. specialize (IH g).
    pose proof (stringify_fact_length f). cbn [List.length String.length]. lia.
Qed.

Lemma concat_facts_head f fs rest :
  exists r,
    String.concat "," (map stringify (map fact_value (f :: fs))) ++ rest =
    String "{" r.
Proof.
  destruct fs as [|g more].
  - cbn [map String.concat]. rewrite stringify_fact. cbn. eexists. reflexivity.
  - change (String.concat "," (map stringify (map fact_value (f :: g :: more))))
      with (stringify (fact_value f) ++ "," ++
            String.concat "," (map stringify (map fact_value (g :: more)))).
    rewrite append_assoc, stringify_fact. cbn. eexists. reflexivity.
Qed.

Lemma parse_elements_facts fs f n rest :
  (List.length fs + 5 <= n)%nat ->
  parse_elements n
    (String.concat "," (map stringify (map fact_value (f :: fs))) ++ String "]" rest) =
  Some (map fact_value (f :: fs), rest).
Proof.
  revert f n. induction fs as [|g more IH]; intros f n Hn.
  - destruct n as [|n]; [cbn in Hn; lia|].
    cbn [map String.concat parse_elements].
    rewrite parse_value_fact by (cbn in Hn; lia).
    reflexivity.
  - destruct n as [|n]; [cbn in Hn; lia|].
    change (String.concat "," (map stringify (map fact_value (f :: g :: more))))
      with (stringify (fact_value f) ++ "," ++
            String.concat "," (map stringify (map fact_value (g :: more)))).
    rewrite append_assoc. cbn [parse_elements].
    rewrite parse_value_fact by (cbn in Hn; lia).
    rewrite append_assoc. cbn [append skip_ws is_ws Ascii.eqb Bool.eqb orb andb].
    rewrite IH by (cbn in Hn |- *; lia).
    reflexivity.
Qed.

(** The law the store relies on, for the reference platform. *)
Lemma parse_stringify_facts fs :
  parse (stringify (facts_value fs)) = Some (facts_value fs).
Proof.
  destruct fs as [|f more]; [reflexivity|].
  unfold parse, facts_value. cbn [stringify].
  set (body := String.concat "," (map stringify (map fact_value (f :: more)))).
  assert (Hlen : (List.length more + 3 <= String.length body)%nat)
    by apply concat_facts_length.
  destruct (concat_facts_head f more "]") as (r & Hhead).
  fold body in Hhead.
  cbn [append String.length parse_value skip_ws is_ws Ascii.eqb Bool.eqb orb andb].
  rewrite Hhead.
  cbn [skip_ws is_ws Ascii.eqb Bool.eqb orb andb].
  rewrite <- Hhead.
  unfold body. rewrite parse_elements_facts.
  - reflexivity.
  - fold body. rewrite length_append. cbn [String.length]. lia.
Qed.
End ReferenceProps.

(* ================================================================= *)
(** ** Scenarios on the reference platform *)

(** The handshake: a PING is answered with the PONG payload, status 200. *)
Example ping_is_answered_with_pong :
  router_post Sample.ping Sample.no_file = (ok pong_response, Sample.no_file) /\
  status pong_response = 200 /\
  body_text pong_response = Reference.json_text "{'type':1}".
Proof.
  vm_compute. auto.
Qed.

(** [storeFact("New fact")] on an empty store. *)
Example add_new_fact_to_empty_store :
  file (snd (storeFact (VStr "New fact") VUndefined Sample.no_file)) =
  Some (Reference.json_text "[{'fact':'New fact','is_enabled':true}]").
Proof.
  vm_compute. reflexivity.
Qed.

(** [storeFacts(["B"])] on a store with A enabled and B disabled. *)
Example select_B_of_A_and_B :
  file (snd (storeFacts (VArr [VStr "B"]) (Sample.store Sample.a_and_b))) =
  Some (Reference.json_text
          "[{'fact':'A','is_enabled':false},{'fact':'B','is_enabled':true}]").
Proof.
  vm_compute. reflexivity.
Qed.

(** A modal submission of an allowed user stores the submitted text. *)
Example submission_stores_the_fact :
  let run := router_post (Sample.submission "encryptoknight" "Ben naps")
                         (Sample.store Sample.tea) in
  fst run =
    ok (JsonResponse
          (message_payload "Fact added! They better hold on to their butts...") None) /\
  file (snd run) =
    Some (Reference.json_text
            "[{'fact':'Ben likes tea','is_enabled':true},{'fact':'Ben naps','is_enabled':true}]").
Proof.
  vm_compute. auto.
Qed.

(** Witness of C1: four calls, two of them for the same text, on a store
    with no file. *)
Lemma storeFact_each_keeps_last_write_per_text_witness :
  let calls := [("A", None); ("B", Some false); ("A", Some false);
                ("New fact", None)] in
  writable Sample.no_file = true /\
  holds Sample.no_file [] /\
  exists fs,
    fst (storeFact_each calls Sample.no_file) = ok tt /\
    holds (snd (storeFact_each calls Sample.no_file)) fs /\
    NoDup (map fact fs) /\
    (forall t, In t (map fact fs) <-> In t (map fst calls)) /\
    (forall f, In f fs ->
       exists before enabled after,
         calls = (before ++ (fact f, enabled) :: after)%list /\
         ~ In (fact f) (map fst after) /\
         is_enabled f = enabled_of enabled).
Proof.
  cbv zeta. split; [reflexivity|]. split; [reflexivity|].
  apply (@storeFact_each_keeps_last_write_per_text reference_platform
           ReferenceProps.parse_stringify_facts _ Sample.no_file []).
  - reflexivity.
  - reflexivity.
  - intros f [].
Defined.

(** What the four calls of the witness leave in the file. *)
Example four_calls_outcome :
  file (snd (storeFact_each [("A", None); ("B", Some false); ("A", Some false);
                             ("New fact", None)] Sample.no_file)) =
  Some (Reference.json_text
          "[{'fact':'A','is_enabled':false},{'fact':'B','is_enabled':false},{'fact':'New fact','is_enabled':true}]").
Proof.
  vm_compute. reflexivity.
Qed.

(** Witness of C2: A enabled, B disabled, and B selected. *)
Lemma storeFacts_keeps_texts_and_sets_flags_witness :
  let w := Sample.store Sample.a_and_b in
  let fs := [mkFact "A" true; mkFact "B" false] in
  writable w = true /\
  holds w fs /\
  NoDup (map fact fs) /\
  exists fs',
    fst (storeFacts (VArr (map VStr ["B"])) w) = ok tt /\
    holds (snd (storeFacts (VArr (map VStr ["B"])) w)) fs' /\
    map fact fs' = map fact fs /\
    (forall f, In f fs' -> (is_enabled f = true <-> In (fact f) ["B"])).
Proof.
  cbv zeta.
  assert (Hnodup : NoDup (map fact [mkFact "A" true; mkFact "B" false])).
  { repeat constructor; cbn; intuition discriminate. }
  split; [reflexivity|]. split; [reflexivity|]. split; [exact Hnodup|].
  apply (@storeFacts_keeps_texts_and_sets_flags reference_platform
           ReferenceProps.parse_stringify_facts);
    [reflexivity | reflexivity | exact Hnodup].
Defined.

(** Witness of C3: a store with no file, and one whose file is not JSON. *)
Lemma getFacts_missing_or_corrupt_returns_empty_witness :
  (fst (getFacts Sample.no_file) = ok (VArr []) /\
   file (snd (getFacts Sample.no_file)) = file Sample.no_file /\
   log (snd (getFacts Sample.no_file)) =
     (log Sample.no_file ++ [ReadFile; ConsoleError "Error reading facts file:"])%list) /\
  (let w := Sample.store "[{'fact':" in
   fst (getFacts w) = ok (VArr []) /\
   file (snd (getFacts w)) = file w /\
   log (snd (getFacts w)) =
     (log w ++ [ReadFile; ConsoleError "Error reading facts file:"])%list).
Proof.
  split.
  - apply getFacts_missing_or_corrupt_returns_empty. left. reflexivity.
  - apply getFacts_missing_or_corrupt_returns_empty. right.
    eexists. split; reflexivity.
Defined.

(** Witness of C5: a selection by a user who is not on the list. *)
Lemma denied_user_gets_403_without_store_access_witness :
  let request := Sample.selection_of_B "mallory" in
  let w := Sample.store Sample.a_and_b in
  delivers request
    (Sample.interaction 3 "mallory" (VObj [("values", VArr [VStr "B"])])) /\
  fst (validateUserAccess (VStr "mallory") w) <> ok None /\
  fst (router_post request w) = ok forbidden_response /\
  status forbidden_response = 403 /\
  body forbidden_response = Json (VObj [("error", VStr "Invalid user access")]) /\
  file (snd (router_post request w)) = file w /\
  filter is_file_event (log (snd (router_post request w))) =
  filter is_file_event (log w).
Proof.
  cbv zeta.
  assert (Hdel : delivers (Sample.selection_of_B "mallory")
                   (Sample.interaction 3 "mallory" (VObj [("values", VArr [VStr "B"])]))).
  { repeat split; vm_compute; reflexivity. }
  assert (Hdenied : fst (validateUserAccess (VStr "mallory")
                           (Sample.store Sample.a_and_b)) <> ok None).
  { vm_compute. discriminate. }
  split; [exact Hdel|]. split; [exact Hdenied|].
  apply (denied_user_gets_403_without_store_access
           _ _ InteractionType.MESSAGE_COMPONENT (VStr "mallory") _ Hdel).
  - reflexivity.
  - right. right. left. reflexivity.
  - reflexivity.
  - exact Hdenied.
Defined.

(** Witness of C6: the store holds the one fact that Ben likes tea, and the
    command is written with a capital letter. *)
Lemma select_command_lists_every_fact_witness :
  let request := Sample.command "LuggageMoose" "Select" in
  let w := Sample.store Sample.tea in
  holds w [mkFact "Ben likes tea" true] /\
  exists payload row menu,
    fst (router_post request w) = ok (JsonResponse payload None) /\
    get_path payload ["data"; "components"] = ok (VArr [row]) /\
    get row "components" = ok (VArr [menu]) /\
    get menu "type" = ok (VNum MessageComponentTypes.STRING_SELECT) /\
    get menu "options" =
      ok (VArr [VObj [("label", VStr "Ben likes tea");
                      ("value", VStr "Ben likes tea");
                      ("default", VBool true)]]) /\
    get menu "min_values" = ok (VNum 1) /\
    get menu "max_values" = ok (VNum 1).
Proof.
  cbv zeta. split; [reflexivity|].
  apply (select_command_lists_every_fact
           (Sample.command "LuggageMoose" "Select")
           (Sample.interaction 2 "LuggageMoose" (VObj [("name", VStr "Select")]))
           (VStr "LuggageMoose") "Select" (Sample.store Sample.tea)
           [mkFact "Ben likes tea" true]).
  - repeat split; vm_compute; reflexivity.
  - reflexivity.
  - reflexivity.
  - reflexivity.
  - reflexivity.
  - reflexivity.
  - reflexivity.
Defined.

(** Counterexample to C7: the list command of an allowed user is answered
    with the Unknown Type error, on the sample store and on every platform,
    request and store. *)
Lemma list_command_gets_unknown_type :
  router_post (Sample.command "LuggageMoose" (name LIST_COMMAND))
              (Sample.store Sample.tea) =
    (ok unknown_type_response, Sample.store Sample.tea) /\
  status unknown_type_response = 400 /\
  body unknown_type_response = Json (VObj [("error", VStr "Unknown Type")]) /\
  ~ (exists (P : Platform) request interaction username w,
       delivers request interaction /\
       get interaction "type" = ok (VNum InteractionType.APPLICATION_COMMAND) /\
       get_path interaction ["member"; "user"; "username"] = ok username /\
       fst (validateUserAccess username w) = ok None /\
       get_path interaction ["data"; "name"] = ok (VStr (name LIST_COMMAND)) /\
       fst (router_post request w) <> ok unknown_type_response).
Proof.
  split; [vm_compute; reflexivity|].
  split; [reflexivity|]. split; [reflexivity|].
  intros (P & request & interaction & username & w &
          Hdel & Htype & Huser & Hallowed & Hname & Hreply).
  apply Hreply.
  rewrite (router_post_list_command request interaction username w
             Hdel Htype Huser Hallowed Hname).
  reflexivity.
Qed.

(** Witness of C7 as the code has it: the list command. *)
Lemma application_commands_served_are_add_and_select_witness :
  let request := Sample.command "LuggageMoose" "list" in
  let w := Sample.store Sample.tea in
  delivers request
    (Sample.interaction 2 "LuggageMoose" (VObj [("name", VStr "list")])) /\
  fst (validateUserAccess (VStr "LuggageMoose") w) = ok None /\
  (fst (router_post request w) = ok unknown_type_response <->
   lower "list" <> name ADD_COMMAND /\ lower "list" <> name SELECT_COMMAND).
Proof.
  cbv zeta.
  assert (Hdel : delivers (Sample.command "LuggageMoose" "list")
                   (Sample.interaction 2 "LuggageMoose" (VObj [("name", VStr "list")]))).
  { repeat split; vm_compute; reflexivity. }
  split; [exact Hdel|]. split; [reflexivity|].
  apply (application_commands_served_are_add_and_select
           _ _ (VStr "LuggageMoose") "list" _ Hdel); reflexivity.
Defined.

(** Counterexample to C8: the answer to the add command is neither the
    PONG acknowledgment nor an error response, and it carries no flags. *)
Lemma add_form_is_not_ephemeral :
  let run := router_post (Sample.command "LuggageMoose" "add") Sample.no_file in
  let form := JsonResponse modal_payload None in
  fst run = ok form /\
  form <> pong_response /\
  status form = 200 /\
  get_path modal_payload ["data"; "flags"] = ok VUndefined /\
  ~ ephemeral form.
Proof.
  cbv zeta.
  split; [vm_compute; reflexivity|].
  split; [discriminate|].
  split; [reflexivity|].
  split; [reflexivity|].
  intros (payload & Hbody & Hflags).
  cbn in Hbody. injection Hbody as <-.
  vm_compute in Hflags. discriminate.
Qed.

(** Witness of C8 as the code has it: the confirmation of a selection. *)
Lemma responses_are_ephemeral_except_pong_errors_and_form_witness :
  let request := Sample.selection_of_B "LuggageMoose" in
  let w := Sample.store Sample.a_and_b in
  let r := JsonResponse (message_payload "Facts updated!") None in
  fst (router_post request w) = ok r /\
  (ephemeral r \/
   r = pong_response \/
   status r <> 200 \/
   r = JsonResponse modal_payload None).
Proof.
  cbv zeta.
  assert (Hreply : fst (router_post (Sample.selection_of_B "LuggageMoose")
                                    (Sample.store Sample.a_and_b)) =
                   ok (JsonResponse (message_payload "Facts updated!") None)).
  { vm_compute. reflexivity. }
  split; [exact Hreply|].
  exact (responses_are_ephemeral_except_pong_errors_and_form _ _ _ Hreply).
Defined.

(** Witness of C9: a fact added to the store that holds the tea fact. *)
Lemma mutation_then_getFacts_returns_written_collection_witness :
  let m := AddOne "New fact" None in
  let w := Sample.store Sample.tea in
  holds w [mkFact "Ben likes tea" true] /\
  fst (mutate m w) = ok tt /\
  exists collection before,
    log (snd (mutate m w)) =
      (before ++ [WriteFile (JSON_stringify (facts_value collection))])%list /\
    file (snd (mutate m w)) = Some (JSON_stringify (facts_value collection)) /\
    fst (getFacts (snd (mutate m w))) = ok (facts_value collection).
Proof.
  cbv zeta. split; [reflexivity|]. split; [vm_compute; reflexivity|].
  apply (@mutation_then_getFacts_returns_written_collection reference_platform
           ReferenceProps.parse_stringify_facts
           (AddOne "New fact" None) (Sample.store Sample.tea)
           [mkFact "Ben likes tea" true]).
  - reflexivity.
  - vm_compute. reflexivity.
Defined.

(** Witness of C10: ADD against add, and Select against select. *)
Lemma command_name_dispatch_ignores_case_witness :
  let w := Sample.store Sample.tea in
  router_post (Sample.command "LuggageMoose" "ADD") w =
  router_post (Sample.command "encryptoknight" "add") w /\
  router_post (Sample.command "LuggageMoose" "Select") w =
  router_post (Sample.command "LuggageMoose" "select") w.
Proof.
  cbv zeta. split.
  - apply (command_name_dispatch_ignores_case
             (Sample.command "LuggageMoose" "ADD")
             (Sample.interaction 2 "LuggageMoose" (VObj [("name", VStr "ADD")]))
             (VStr "LuggageMoose") "ADD"
             (Sample.command "encryptoknight" "add")
             (Sample.interaction 2 "encryptoknight" (VObj [("name", VStr "add")]))
             (VStr "encryptoknight"));
      try reflexivity;
      try (repeat split; vm_compute; reflexivity).
    left. reflexivity.
  - apply (command_name_dispatch_ignores_case
             (Sample.command "LuggageMoose" "Select")
             (Sample.interaction 2 "LuggageMoose" (VObj [("name", VStr "Select")]))
             (VStr "LuggageMoose") "Select"
             (Sample.command "LuggageMoose" "select")
             (Sample.interaction 2 "LuggageMoose" (VObj [("name", VStr "select")]))
             (VStr "LuggageMoose"));
      try reflexivity;
      try (repeat split; vm_compute; reflexivity).
    right. reflexivity.
Defined.

(* ================================================================= *)
(** * Further properties of the handler *)

(* ================================================================= *)
(** ** Verification and dispatch *)

Lemma strict_eq_number_false (v : value) (n : Z) :
  v <> VNum n -> strict_eq v (VNum n) = false.
Proof.
  intros Hneq. destruct v; try reflexivity.
  cbn. apply Z.eqb_neq. congruence.
Qed.

(** Property reads throw nothing but a TypeError. *)
Lemma get_raises_TypeError v k e : get v k = raise e -> e = TypeError.
Proof.
  unfold get, raise, ok.
  destruct v; try discriminate; try congruence;
    destruct (k =? "length")%string; try discriminate;
    destruct (array_index k); discriminate.
Qed.

Section Dispatch.
Context `{Platform}.


(** X2.  A request that passes verification and whose body parses to a
    falsy value ([null], [false], [0] or the empty string) is answered with
    the same 401. *)
Theorem falsy_body_gets_401 request interaction w :
  delivers request interaction ->
  truthy interaction = false ->
  router_post request w = (ok bad_signature_response, w).
Proof.
  intros Hdel Hfalsy.
  unfold router_post. unfold bind at 1.
  rewrite (verifyDiscordRequest_delivers _ _ _ Hdel).
  unfold ok at 1. cbv beta iota. rewrite Hfalsy. reflexivity.
Qed.

(** X3.  A request that passes verification and whose body is not JSON
    gets no response: the handler throws the SyntaxError of [JSON.parse],
    and the world is left as it was. *)
Theorem unparsable_body_throws_SyntaxError request w :
  header_truthy (x_signature_ed25519 request) = true ->
  header_truthy (x_signature_timestamp request) = true ->
  verifyKey (text request)
            (header_text (x_signature_ed25519 request))
            (header_text (x_signature_timestamp request)) = true ->
  JSON_parse (text request) = None ->
  router_post request w = (raise SyntaxError, w).
Proof.
  intros Hsig Hts Hkey Hparse.
  unfold router_post, verifyDiscordRequest, JSON_parse_or_throw. unfold bind at 1.
  rewrite Hsig, Hts, Hkey. cbn [andb negb]. unfold bind at 1.
  rewrite Hparse. reflexivity.
Qed.

(** X4.  A PING is answered with the PONG payload, status 200, whatever
    else the interaction holds: the user is not looked at, and the world is
    left as it was. *)
Theorem ping_gets_pong_without_guard request interaction w :
  delivers request interaction ->
  get interaction "type" = ok (VNum InteractionType.PING) ->
  router_post request w = (ok pong_response, w) /\
  status pong_response = 200 /\
  body pong_response = Json (VObj [("type", VNum InteractionResponseType.PONG)]).
Proof.
  intros Hdel Htype. split; [|split; reflexivity].
  rewrite (router_post_enter _ _ _ w Hdel Htype). reflexivity.
Qed.

(** X5.  An interaction whose [type] is none of PING, APPLICATION_COMMAND,
    MODAL_SUBMIT and MESSAGE_COMPONENT (another number, a string, or no
    type at all) is answered with the 400 "Unknown Type" error; the guard
    is not consulted, the file is left as it was and the log gains the
    console line only. *)
Theorem unknown_interaction_type_gets_400 request interaction type w :
  delivers request interaction ->
  truthy interaction = true ->
  get interaction "type" = ok type ->
  (forall n, In n [InteractionType.PING; InteractionType.APPLICATION_COMMAND;
                   InteractionType.MODAL_SUBMIT; InteractionType.MESSAGE_COMPONENT] ->
             type <> VNum n) ->
  router_post request w =
    (ok unknown_type_response, emit (ConsoleError "Unknown Type") w) /\
  status unknown_type_response = 400.
Proof.
  intros Hdel Htruthy Htype Hother. split; [|reflexivity].
  unfold router_post. unfold bind at 1.
  rewrite (verifyDiscordRequest_delivers _ _ _ Hdel).
  unfold ok at 1. cbv beta iota. rewrite Htruthy. cbn [negb orb].
  unfold bind at 1. unfold lift at 1. rewrite Htype. unfold ok at 1. cbv beta iota.
  rewrite !strict_eq_number_false by (apply Hother; cbn; tauto).
  reflexivity.
Qed.

(** X6.  An interaction of a guarded type that has no [member] (or a
    [member] without [user]) gets no response: reading the user name
    throws a TypeError before the guard is consulted, and the world is left
    as it was. *)
Theorem missing_member_throws_TypeError request interaction n w :
  delivers request interaction ->
  get interaction "type" = ok (VNum n) ->
  In n [InteractionType.APPLICATION_COMMAND; InteractionType.MODAL_SUBMIT;
        InteractionType.MESSAGE_COMPONENT] ->
  get interaction "member" = ok VUndefined \/
  get_path interaction ["member"; "user"] = ok VUndefined ->
  router_post request w = (raise TypeError, w).
Proof.
  intros Hdel Htype Hin Hmissing.
  assert (Huser : get_path interaction ["member"; "user"; "username"] = raise TypeError).
  { cbn [get_path] in *. destruct Hmissing as [-> | Hmissing]; [reflexivity|].
    destruct (get interaction "member") as [e | member]; [discriminate|].
    cbn [rbind] in *.
    destruct (get member "user") as [e | user]; [discriminate|].
    cbn [rbind] in *. unfold ok in Hmissing. injection Hmissing as ->.
    reflexivity. }
  rewrite (router_post_enter _ _ _ w Hdel Htype).
  destruct Hin as [<- | [<- | [<- | []]]];
    cbn [Z.eqb InteractionType.PING InteractionType.APPLICATION_COMMAND
         InteractionType.MODAL_SUBMIT InteractionType.MESSAGE_COMPONENT Pos.eqb];
    unfold bind at 1; unfold lift at 1; rewrite Huser; reflexivity.
Qed.

End Dispatch.

(* ================================================================= *)
(** ** The guard on any value *)

Lemma includes_allow_list_value (v : value) :
  includes [VStr "LuggageMoose"; VStr "encryptoknight"] v = true <->
  v = VStr "LuggageMoose" \/ v = VStr "encryptoknight".
Proof.
  destruct v as [| | b | n | s | elems | props];
    try (cbn; split; [discriminate | intros [Heq | Heq]; discriminate]).
  rewrite includes_allow_list. split; intros [Heq | Heq];
    solve [left; congruence | right; congruence].
Qed.

(** X7.  The guard lets a value through exactly when it is the string
    ["LuggageMoose"] or the string ["encryptoknight"]: [undefined], [null],
    a number, or an array or object that holds an allowed name are refused
    like any other string, with the 403 response and a console line. *)
Theorem validateUserAccess_allows_two_strings_only (username : value) w :
  (fst (validateUserAccess username w) = ok None <->
   username = VStr "LuggageMoose" \/ username = VStr "encryptoknight") /\
  (fst (validateUserAccess username w) = ok None \/
   validateUserAccess username w =
   (ok (Some forbidden_response), emit (ConsoleError "Invalid user access") w)).
Proof.
  rewrite <- includes_allow_list_value.
  destruct (validateUserAccess_cases username w) as [[Hin Heq] | [Hin Heq]];
    rewrite Heq, Hin; unfold ok; cbn; split; try tauto.
  split; [discriminate | discriminate].
Qed.

Lemma filter_no_file_events (tail : list event) :
  forallb (fun e => negb (is_file_event e)) tail = true ->
  filter is_file_event tail = [].
Proof.
  induction tail as [|e rest IH]; [reflexivity|].
  cbn. destruct (is_file_event e); [discriminate | exact IH].
Qed.

(** A traversal whose callback throws nothing but TypeErrors throws a
    TypeError as soon as one element makes it throw. *)
Lemma map_result_TypeError {B} (f : value -> result B) (l : list value) :
  (forall x e, f x = raise e -> e = TypeError) ->
  (exists x, In x l /\ f x = raise TypeError) ->
  map_result f l = raise TypeError.
Proof.
  intros Honly (x & Hin & Hx).
  induction l as [|y rest IH]; [destruct Hin|].
  cbn [map_result].
  destruct (f y) as [e | b] eqn:Hy.
  - rewrite (Honly y e Hy). reflexivity.
  - cbn [rbind]. destruct Hin as [-> | Hin].
    + unfold raise in Hx. congruence.
    + rewrite (IH Hin). reflexivity.
Qed.

Section Commands.
Context `{Platform}.

(** X8.  Whoever the guard refuses is refused also without a user name or
    with one that is no string: an interaction of a guarded type whose
    [member.user] has no [username], or a [username] that is not a string,
    is answered with the 403, and the store is not touched. *)
Theorem non_string_username_gets_403 request interaction n username w :
  delivers request interaction ->
  get interaction "type" = ok (VNum n) ->
  In n [InteractionType.APPLICATION_COMMAND; InteractionType.MODAL_SUBMIT;
        InteractionType.MESSAGE_COMPONENT] ->
  get_path interaction ["member"; "user"; "username"] = ok username ->
  (forall s, username <> VStr s) ->
  router_post request w =
  (ok forbidden_response, emit (ConsoleError "Invalid user access") w).
Proof.
  intros Hdel Htype Hin Huser Hnostring.
  apply (router_post_denied _ _ _ _ _ Hdel Htype Hin Huser).
  destruct (validateUserAccess_cases username w) as [[Hallowed _] | [_ Heq]].
  - apply includes_allow_list_value in Hallowed.
    destruct Hallowed as [-> | ->]; exfalso; eapply Hnostring; reflexivity.
  - rewrite Heq. unfold ok. cbn. discriminate.
Qed.

(** X9.  The add command of an allowed user is answered with the form,
    whose one row holds one required text input of 1 to 1000 characters,
    and nothing else happens: the world is left as it was, whatever the
    state of the store. *)
Theorem add_command_opens_form_without_store_access
    request interaction username commandName w :
  delivers request interaction ->
  get interaction "type" = ok (VNum InteractionType.APPLICATION_COMMAND) ->
  get_path interaction ["member"; "user"; "username"] = ok username ->
  fst (validateUserAccess username w) = ok None ->
  get_path interaction ["data"; "name"] = ok (VStr commandName) ->
  lower commandName = name ADD_COMMAND ->
  router_post request w = (ok (JsonResponse modal_payload None), w) /\
  exists input,
    get_path modal_payload ["data"; "components"; "0"; "components"] =
      ok (VArr [input]) /\
    get input "type" = ok (VNum MessageComponentTypes.INPUT_TEXT) /\
    get input "min_length" = ok (VNum 1) /\
    get input "max_length" = ok (VNum 1000) /\
    get input "required" = ok (VBool true).
Proof.
  intros Hdel Htype Huser Hallowed Hname Hlower.
  rewrite (router_post_command _ _ _ _ _ Hdel Htype Huser Hallowed Hname).
  rewrite Hlower. split; [reflexivity|].
  eexists. split; [reflexivity|]. repeat split.
Qed.

(** X10.  The select command of an allowed user only reads: whatever the
    file holds, and whether the answer is a message or an exception, the
    file is left as it was and the log gains one read of the file and no
    write. *)
Theorem select_command_only_reads
    request interaction username commandName w :
  delivers request interaction ->
  get interaction "type" = ok (VNum InteractionType.APPLICATION_COMMAND) ->
  get_path interaction ["member"; "user"; "username"] = ok username ->
  fst (validateUserAccess username w) = ok None ->
  get_path interaction ["data"; "name"] = ok (VStr commandName) ->
  lower commandName = name SELECT_COMMAND ->
  file (snd (router_post request w)) = file w /\
  writable (snd (router_post request w)) = writable w /\
  filter is_file_event (log (snd (router_post request w))) =
  (filter is_file_event (log w) ++ [ReadFile])%list.
Proof.
  intros Hdel Htype Huser Hallowed Hname Hlower.
  rewrite (router_post_command _ _ _ _ _ Hdel Htype Huser Hallowed Hname).
  rewrite Hlower. cbn [name SELECT_COMMAND String.eqb Ascii.eqb Bool.eqb].
  destruct (getFacts_total w) as (v & tail & Hget & Htail).
  assert (Hlog : filter is_file_event (log w ++ ReadFile :: tail) =
                 (filter is_file_event (log w) ++ [ReadFile])%list).
  { rewrite filter_app. cbn. now rewrite (filter_no_file_events _ Htail). }
  unfold bind, lift, ret. rewrite Hget. unfold ok. cbv beta iota.
  destruct (get v "length") as [e | max_values];
    [cbn; split; [reflexivity | split; [reflexivity | exact Hlog]]|].
  destruct (array_map v _) as [e | options];
    cbn; (split; [reflexivity | split; [reflexivity | exact Hlog]]).
Qed.

(** X11.  On a store whose file is missing or is not JSON, the select
    command of an allowed user is answered with a menu that has no option
    and [max_values] 0, below its [min_values] 1. *)
Theorem select_command_on_unreadable_store
    request interaction username commandName w :
  delivers request interaction ->
  get interaction "type" = ok (VNum InteractionType.APPLICATION_COMMAND) ->
  get_path interaction ["member"; "user"; "username"] = ok username ->
  fst (validateUserAccess username w) = ok None ->
  get_path interaction ["data"; "name"] = ok (VStr commandName) ->
  lower commandName = name SELECT_COMMAND ->
  (file w = None \/
   exists data, file w = Some data /\ JSON_parse data = None) ->
  fst (router_post request w) =
    ok (JsonResponse (select_payload (VNum 0) []) None) /\
  exists menu,
    get_path (select_payload (VNum 0) []) ["data"; "components"; "0"; "components"] =
      ok (VArr [menu]) /\
    get menu "options" = ok (VArr []) /\
    get menu "min_values" = ok (VNum 1) /\
    get menu "max_values" = ok (VNum 0).
Proof.
  intros Hdel Htype Huser Hallowed Hname Hlower Hunreadable.
  assert (Hholds : holds w []).
  { unfold holds. destruct Hunreadable as [Hmissing | (data & Hfile & Hparse)].
    - rewrite (getFacts_missing _ Hmissing). reflexivity.
    - rewrite (getFacts_corrupt _ _ Hfile Hparse). reflexivity. }
  rewrite (router_post_command _ _ _ _ _ Hdel Htype Huser Hallowed Hname).
  rewrite Hlower. cbn [name SELECT_COMMAND String.eqb Ascii.eqb Bool.eqb].
  rewrite (select_reply_holds _ _ Hholds). split; [reflexivity|].
  eexists. split; [reflexivity|]. repeat split.
Qed.

(** X12.  On a store whose file is JSON but not an array, or an array with
    a [null] element, the select command of an allowed user gets no
    response: the handler throws a TypeError. *)
Theorem select_command_on_malformed_store
    request interaction username commandName w data v :
  delivers request interaction ->
  get interaction "type" = ok (VNum InteractionType.APPLICATION_COMMAND) ->
  get_path interaction ["member"; "user"; "username"] = ok username ->
  fst (validateUserAccess username w) = ok None ->
  get_path interaction ["data"; "name"] = ok (VStr commandName) ->
  lower commandName = name SELECT_COMMAND ->
  file w = Some data ->
  JSON_parse data = Some v ->
  ((forall elems, v <> VArr elems) \/
   (exists elems, v = VArr elems /\ In VNull elems)) ->
  fst (router_post request w) = raise TypeError.
Proof.
  intros Hdel Htype Huser Hallowed Hname Hlower Hfile Hparse Hmalformed.
  rewrite (router_post_command _ _ _ _ _ Hdel Htype Huser Hallowed Hname).
  rewrite Hlower. cbn [name SELECT_COMMAND String.eqb Ascii.eqb Bool.eqb].
  unfold bind at 1. rewrite (getFacts_parsed _ _ _ Hfile Hparse).
  unfold ok at 1. cbv beta iota. unfold bind, lift, ret.
  destruct Hmalformed as [Hnoarray | (elems & -> & Hnull)].
  - destruct v as [| | b | n | s | elems | props]; try reflexivity.
    destruct (Hnoarray elems eq_refl).
  - cbn [get]. cbn [String.eqb Ascii.eqb Bool.eqb]. unfold ok at 1.
    unfold array_map. rewrite map_result_TypeError; [reflexivity | |].
    + intros x e Hx. destruct (get x "fact") as [e1 | fact1] eqn:Hfact.
      * cbn in Hx. unfold raise in Hx. injection Hx as <-.
        apply (get_raises_TypeError _ _ _ Hfact).
      * cbn [rbind] in Hx. destruct (get x "is_enabled") as [e2 | flag] eqn:Hflag.
        -- cbn in Hx. unfold raise in Hx. injection Hx as <-.
           apply (get_raises_TypeError _ _ _ Hflag).
        -- discriminate.
    + exists VNull. split; [exact Hnull | reflexivity].
Qed.

(** X13.  Every response of the handler with status 200 is built with the
    JSON content type, and every other response (401, 403, 400) is built
    with no header of the handler's, so without the JSON content type:
    [JsonResponse] sets the content type only when it is given no
    [init]. *)
Theorem error_responses_carry_no_content_type request w r :
  fst (router_post request w) = ok r ->
  (status r = 200 /\ headers r = json_headers) \/
  (In (status r) [400; 401; 403] /\ headers r = []).
Proof.
  unfold router_post, validateUserAccess, console_error, bind, lift, ret, ok.
  intros Hreply. cbv beta iota in Hreply.
  repeat match type of Hreply with
         | context [match ?x with _ => _ end] =>
             lazymatch x with
             | context [match _ with _ => _ end] => fail
             | _ => destruct x; cbv beta iota in Hreply
             end
         end;
    cbn [fst] in Hreply;
    try discriminate Hreply;
    injection Hreply as <-;
    first [ left; split; reflexivity
          | right; split; [cbn; tauto | reflexivity] ].
Qed.

End Commands.

(* ================================================================= *)
(** ** The store on any input *)

Lemma upsert_same_text fs f g :
  fact f = fact g -> upsert (upsert fs f) g = upsert fs g.
Proof.
  intros Hkey. induction fs as [|h rest IH]; cbn.
  - rewrite <- Hkey, String.eqb_refl. reflexivity.
  - rewrite <- Hkey.
    destruct (fact h =? fact f)%string eqn:Hh; cbn; rewrite <- Hkey.
    + rewrite String.eqb_refl. reflexivity.
    + rewrite Hh, IH. reflexivity.
Qed.

Lemma upsert_in_place l1 g l2 f :
  ~ In (fact f) (map fact l1) -> fact g = fact f ->
  upsert (l1 ++ g :: l2) f = (l1 ++ f :: l2)%list.
Proof.
  intros Hfresh Hkey. induction l1 as [|h rest IH]; cbn.
  - rewrite Hkey, String.eqb_refl. reflexivity.
  - destruct (String.eqb_spec (fact h) (fact f)) as [Heq | Hneq].
    + exfalso. apply Hfresh. now left.
    + rewrite IH; [reflexivity|]. intros Hin. apply Hfresh. now right.
Qed.

Lemma upsert_reselect selected acc f :
  map (reselect selected) (upsert acc f) =
  upsert (map (reselect selected) acc) (reselect selected f).
Proof.
  induction acc as [|g rest IH]; cbn; [reflexivity|].
  destruct (fact g =? fact f)%string; cbn; [reflexivity | now rewrite IH].
Qed.

Lemma fold_upsert_reselect selected fs acc :
  map (reselect selected) (fold_left upsert fs acc) =
  fold_left upsert (map (reselect selected) fs) (map (reselect selected) acc).
Proof.
  revert acc. induction fs as [|f rest IH]; cbn; intros acc; [reflexivity|].
  rewrite IH, upsert_reselect. reflexivity.
Qed.

Lemma dedupe_reselect selected fs :
  dedupe (map (reselect selected) fs) = map (reselect selected) (dedupe fs).
Proof.
  unfold dedupe. now rewrite (fold_upsert_reselect selected fs []).
Qed.

Lemma reselect_reselect sel1 sel2 fs :
  map (reselect sel2) (map (reselect sel1) fs) = map (reselect sel2) fs.
Proof.
  rewrite map_map. reflexivity.
Qed.

Lemma dedupe_dedupe fs : dedupe (dedupe fs) = dedupe fs.
Proof.
  apply dedupe_distinct, dedupe_NoDup.
Qed.

(** The callback of [storeFact] throws nothing but TypeErrors. *)
Lemma entry_callback_TypeError (x : value) e :
  rbind (get x "fact") (fun k => ok (k, x)) = raise e -> e = TypeError.
Proof.
  destruct (get x "fact") as [e1 | k] eqn:Hget; cbn; [|discriminate].
  unfold raise. intros Heq. injection Heq as <-.
  apply (get_raises_TypeError _ _ _ Hget).
Qed.

Section StoreAnyInput.
Context `{Platform}.

(** How a call of [storeFact] can end, on any arguments and any store. *)
Lemma storeFact_outcome newFact is_enabled w :
  (exists data tail,
     storeFact newFact is_enabled w =
       (ok tt, {| file := Some data; writable := true;
                  log := (log w ++ ReadFile :: tail) ++ [WriteFile data] |}) /\
     writable w = true /\
     forallb (fun e => negb (is_file_event e)) tail = true) \/
  (exists before,
     storeFact newFact is_enabled w =
       (raise store_error,
        {| file := file w; writable := writable w;
           log := before ++ [ConsoleError "Error writing to facts file:"] |}) /\
     (writable w = true ->
      filter is_file_event before = filter is_file_event (log w ++ [ReadFile]))).
Proof.
  destruct (getFacts_total w) as (v & tail & Hget & Htail).
  unfold storeFact, try_catch, bind, lift, fs_writeFile. rewrite Hget.
  unfold ok. cbv beta iota zeta.
  destruct (array_map v _) as [e | entries]; cbv beta iota.
  - right. exists (log w ++ ReadFile :: tail)%list. split; [reflexivity|].
    intros _. rewrite !filter_app. cbn.
    now rewrite (filter_no_file_events _ Htail).
  - cbn [writable log file].
    destruct (writable w) eqn:Hwritable; cbv beta iota.
    + left. eexists. exists tail. split; [reflexivity|]. split; [reflexivity | exact Htail].
    + right. eexists. split; [reflexivity|]. discriminate.
Qed.

(** How a call of [storeFacts] can end, on any argument and any store. *)
Lemma storeFacts_outcome _newFacts w :
  (exists data tail,
     storeFacts _newFacts w =
       (ok tt, {| file := Some data; writable := true;
                  log := (log w ++ ReadFile :: tail) ++ [WriteFile data] |}) /\
     writable w = true /\
     forallb (fun e => negb (is_file_event e)) tail = true) \/
  (exists before,
     storeFacts _newFacts w =
       (raise store_error,
        {| file := file w; writable := writable w;
           log := before ++ [ConsoleError "Error writing to facts file:"] |})).
Proof.
  destruct (getFacts_total w) as (v & tail & Hget & Htail).
  unfold storeFacts, try_catch, bind, lift, fs_writeFile.
  destruct (Set_new _newFacts) as [e | newFacts]; cbv beta iota.
  - right. exists (log w). reflexivity.
  - rewrite Hget. unfold ok. cbv beta iota zeta.
    destruct (array_map v _) as [e | entries]; cbv beta iota.
    + right. exists (log w ++ ReadFile :: tail)%list. reflexivity.
    + cbn [writable log file].
      destruct (writable w) eqn:Hwritable; cbv beta iota.
      * left. eexists. exists tail. split; [reflexivity|].
        split; [reflexivity | exact Htail].
      * right. eexists. reflexivity.
Qed.

(** X14.  Whatever its arguments and whatever the store, a call of
    [storeFact] ends in one of two ways.  It returns, and then the file
    holds the text of its one write, after one read.  Or it throws the
    Error "Error writing to facts file:" (never a TypeError, also when the
    failure is in reading the facts), and then the file is as before and
    the last line of the log is that message on the console. *)
Theorem storeFact_writes_once_or_throws_store_error newFact is_enabled w :
  (fst (storeFact newFact is_enabled w) = ok tt /\
   exists data,
     file (snd (storeFact newFact is_enabled w)) = Some data /\
     filter is_file_event (log (snd (storeFact newFact is_enabled w))) =
     (filter is_file_event (log w) ++ [ReadFile; WriteFile data])%list) \/
  (fst (storeFact newFact is_enabled w) = raise store_error /\
   file (snd (storeFact newFact is_enabled w)) = file w /\
   exists before,
     log (snd (storeFact newFact is_enabled w)) =
     (before ++ [ConsoleError "Error writing to facts file:"])%list).
Proof.
  destruct (storeFact_outcome newFact is_enabled w)
    as [(data & tail & -> & _ & Htail) | (before & -> & _)].
  - left. split; [reflexivity|]. exists data. split; [reflexivity|].
    cbn [snd log]. rewrite !filter_app. cbn.
    rewrite (filter_no_file_events _ Htail). rewrite <- app_assoc. reflexivity.
  - right. split; [reflexivity|]. split; [reflexivity|]. exists before. reflexivity.
Qed.

(** X15.  The same for [storeFacts]: it returns after one read and one
    write that leaves its text in the file, or it throws the Error "Error
    writing to facts file:" with the file as before. *)
Theorem storeFacts_writes_once_or_throws_store_error _newFacts w :
  (fst (storeFacts _newFacts w) = ok tt /\
   exists data,
     file (snd (storeFacts _newFacts w)) = Some data /\
     filter is_file_event (log (snd (storeFacts _newFacts w))) =
     (filter is_file_event (log w) ++ [ReadFile; WriteFile data])%list) \/
  (fst (storeFacts _newFacts w) = raise store_error /\
   file (snd (storeFacts _newFacts w)) = file w /\
   exists before,
     log (snd (storeFacts _newFacts w)) =
     (before ++ [ConsoleError "Error writing to facts file:"])%list).
Proof.
  destruct (storeFacts_outcome _newFacts w)
    as [(data & tail & -> & _ & Htail) | (before & ->)].
  - left. split; [reflexivity|]. exists data. split; [reflexivity|].
    cbn [snd log]. rewrite !filter_app. cbn.
    rewrite (filter_no_file_events _ Htail). rewrite <- app_assoc. reflexivity.
  - right. split; [reflexivity|]. split; [reflexivity|]. exists before. reflexivity.
Qed.

(** X16.  On a store that cannot be written, [storeFact] and [storeFacts]
    throw the Error "Error writing to facts file:" on every input, and the
    file is as before. *)
Theorem unwritable_store_throws_store_error newFact is_enabled _newFacts w :
  writable w = false ->
  (fst (storeFact newFact is_enabled w) = raise store_error /\
   file (snd (storeFact newFact is_enabled w)) = file w) /\
  (fst (storeFacts _newFacts w) = raise store_error /\
   file (snd (storeFacts _newFacts w)) = file w).
Proof.
  intros Hwritable. split.
  - destruct (storeFact_outcome newFact is_enabled w)
      as [(data & tail & _ & Htrue & _) | (before & -> & _)];
      [congruence | split; reflexivity].
  - destruct (storeFacts_outcome _newFacts w)
      as [(data & tail & _ & Htrue & _) | (before & ->)];
      [congruence | split; reflexivity].
Qed.

(** X17.  When the facts file holds JSON that is not an array, or an array
    with a [null] element, [storeFact] throws the Error "Error writing to
    facts file:" although it attempts no write: the log gains the read and
    the console line, and the file is as before. *)
Theorem storeFact_on_malformed_store newFact is_enabled w data v :
  file w = Some data ->
  JSON_parse data = Some v ->
  ((forall elems, v <> VArr elems) \/
   (exists elems, v = VArr elems /\ In VNull elems)) ->
  storeFact newFact is_enabled w =
  (raise store_error,
   emit (ConsoleError "Error writing to facts file:") (emit ReadFile w)).
Proof.
  intros Hfile Hparse Hmalformed.
  unfold storeFact, try_catch. unfold bind at 1.
  rewrite (getFacts_parsed _ _ _ Hfile Hparse).
  unfold ok at 1. cbv beta iota. unfold bind at 1. unfold lift at 1.
  assert (Hmap : array_map v (fun fact => rbind (get fact "fact") (fun k => ok (k, fact))) =
                 raise TypeError).
  { destruct Hmalformed as [Hnoarray | (elems & -> & Hnull)].
    - destruct v as [| | b | n | s | elems | props]; try reflexivity.
      destruct (Hnoarray elems eq_refl).
    - unfold array_map. apply map_result_TypeError.
      + intros x e. apply entry_callback_TypeError.
      + exists VNull. split; [exact Hnull | reflexivity]. }
  rewrite Hmap. reflexivity.
Qed.

(** X18.  An argument of [storeFacts] that is not iterable (a number, a
    boolean, an object) makes it throw the Error "Error writing to facts
    file:" before the file is read: the log gains the console line only. *)
Theorem storeFacts_of_non_iterable _newFacts w :
  (exists b, _newFacts = VBool b) \/ (exists n, _newFacts = VNum n) \/
  (exists props, _newFacts = VObj props) ->
  storeFacts _newFacts w =
  (raise store_error, emit (ConsoleError "Error writing to facts file:") w).
Proof.
  intros [(b & ->) | [(n & ->) | (props & ->)]]; reflexivity.
Qed.

End StoreAnyInput.

(* ================================================================= *)
(** ** How the store operations compose *)

Section Composition.
Context `{Platform}.

Hypothesis JSON_roundtrip :
  forall fs, JSON_parse (JSON_stringify (facts_value fs)) = Some (facts_value fs).

(** X19.  [getFacts] never throws and never writes: on every store it
    returns a value, leaves the file and its writability as they were, and
    adds one read of the file to the log. *)
Theorem getFacts_never_throws_or_writes w :
  (exists v, fst (getFacts w) = ok v) /\
  file (snd (getFacts w)) = file w /\
  writable (snd (getFacts w)) = writable w /\
  filter is_file_event (log (snd (getFacts w))) =
  (filter is_file_event (log w) ++ [ReadFile])%list.
Proof.
  destruct (getFacts_total w) as (v & tail & -> & Htail).
  split; [exists v; reflexivity|]. split; [reflexivity|]. split; [reflexivity|].
  cbn [snd log]. rewrite filter_app. cbn.
  now rewrite (filter_no_file_events _ Htail).
Qed.

Lemma storeFact_holds t enabled w fs :
  writable w = true ->
  holds w fs ->
  fst (storeFact (VStr t) (enabled_arg enabled) w) = ok tt /\
  writable (snd (storeFact (VStr t) (enabled_arg enabled) w)) = true /\
  file (snd (storeFact (VStr t) (enabled_arg enabled) w)) =
    Some (JSON_stringify
            (facts_value (upsert (dedupe fs) (mkFact t (enabled_of enabled))))) /\
  holds (snd (storeFact (VStr t) (enabled_arg enabled) w))
        (upsert (dedupe fs) (mkFact t (enabled_of enabled))).
Proof.
  intros Hwritable Hholds.
  rewrite (storeFact_run w fs t enabled Hholds).
  assert (Hok : fst (written (added_text fs t enabled) (snd (getFacts w))) = ok tt).
  { apply written_writable. now rewrite getFacts_writable. }
  destruct (written_ok _ _ Hok) as (Hfile & Hwritable' & _).
  unfold added_text in *. rewrite dedupe_snoc in *.
  split; [exact Hok|]. split; [exact Hwritable'|]. split; [exact Hfile|].
  now apply (holds_written JSON_roundtrip).
Qed.

Lemma storeFacts_holds selected w fs :
  writable w = true ->
  holds w fs ->
  fst (storeFacts (VArr (map VStr selected)) w) = ok tt /\
  writable (snd (storeFacts (VArr (map VStr selected)) w)) = true /\
  file (snd (storeFacts (VArr (map VStr selected)) w)) =
    Some (JSON_stringify (facts_value (map (reselect selected) (dedupe fs)))) /\
  holds (snd (storeFacts (VArr (map VStr selected)) w))
        (map (reselect selected) (dedupe fs)).
Proof.
  intros Hwritable Hholds.
  rewrite (storeFacts_run w fs selected Hholds).
  assert (Hok : fst (written (reselected_text fs selected) (snd (getFacts w))) = ok tt).
  { apply written_writable. now rewrite getFacts_writable. }
  destruct (written_ok _ _ Hok) as (Hfile & Hwritable' & _).
  unfold reselected_text in *. rewrite dedupe_reselect in *.
  split; [exact Hok|]. split; [exact Hwritable'|]. split; [exact Hfile|].
  now apply (holds_written JSON_roundtrip).
Qed.

(** X20.  On a writable store that holds facts with pairwise distinct
    texts, [storeFact] with a text that is not stored appends the fact at
    the end, and with a text that is stored puts the new fact in the place
    of the old one; every other fact keeps its place and its flag. *)
Theorem storeFact_appends_or_replaces_in_place t enabled w fs :
  writable w = true ->
  holds w fs ->
  NoDup (map fact fs) ->
  fst (storeFact (VStr t) (enabled_arg enabled) w) = ok tt /\
  (~ In t (map fact fs) ->
   holds (snd (storeFact (VStr t) (enabled_arg enabled) w))
         (fs ++ [mkFact t (enabled_of enabled)])) /\
  (forall before old after,
     fs = (before ++ old :: after)%list -> fact old = t ->
     holds (snd (storeFact (VStr t) (enabled_arg enabled) w))
           (before ++ mkFact t (enabled_of enabled) :: after)).
Proof.
  intros Hwritable Hholds Hnodup.
  destruct (storeFact_holds t enabled w fs Hwritable Hholds) as (Hok & _ & _ & Hafter).
  rewrite (dedupe_distinct fs Hnodup) in Hafter.
  split; [exact Hok|]. split.
  - intros Hfresh. rewrite upsert_fresh in Hafter; [exact Hafter | exact Hfresh].
  - intros before old after -> Hkey.
    rewrite upsert_in_place in Hafter; [exact Hafter | | exact Hkey].
    rewrite map_app in Hnodup. cbn in Hnodup.
    apply NoDup_remove_2 in Hnodup. rewrite Hkey in Hnodup.
    intros Hin. apply Hnodup. apply in_or_app. now left.
Qed.

(** X21.  Of two [storeFact] calls in a row for the same text, the second
    decides: the file is left as the second call alone would leave it. In
    particular a call repeated with the same arguments changes nothing. *)
Theorem storeFact_again_overwrites t enabled1 enabled2 w fs :
  writable w = true ->
  holds w fs ->
  let w1 := snd (storeFact (VStr t) (enabled_arg enabled1) w) in
  fst (storeFact (VStr t) (enabled_arg enabled2) w1) = ok tt /\
  file (snd (storeFact (VStr t) (enabled_arg enabled2) w1)) =
  file (snd (storeFact (VStr t) (enabled_arg enabled2) w)).
Proof.
  intros Hwritable Hholds w1.
  destruct (storeFact_holds t enabled1 w fs Hwritable Hholds)
    as (_ & Hwritable1 & _ & Hholds1).
  destruct (storeFact_holds t enabled2 w1 _ Hwritable1 Hholds1)
    as (Hok & _ & Hfile2 & _).
  destruct (storeFact_holds t enabled2 w fs Hwritable Hholds)
    as (_ & _ & Hfile & _).
  split; [exact Hok|].
  rewrite Hfile2, Hfile.
  rewrite (dedupe_distinct (upsert (dedupe fs) _))
    by apply upsert_NoDup, dedupe_NoDup.
  rewrite upsert_same_text by reflexivity. reflexivity.
Qed.

(** X22.  Of two [storeFacts] calls in a row, the second decides: the
    first selection leaves no trace, and the file is left as the second
    call alone would leave it. *)
Theorem storeFacts_last_selection_wins selected1 selected2 w fs :
  writable w = true ->
  holds w fs ->
  let w1 := snd (storeFacts (VArr (map VStr selected1)) w) in
  fst (storeFacts (VArr (map VStr selected2)) w1) = ok tt /\
  file (snd (storeFacts (VArr (map VStr selected2)) w1)) =
  file (snd (storeFacts (VArr (map VStr selected2)) w)).
Proof.
  intros Hwritable Hholds w1.
  destruct (storeFacts_holds selected1 w fs Hwritable Hholds)
    as (_ & Hwritable1 & _ & Hholds1).
  destruct (storeFacts_holds selected2 w1 _ Hwritable1 Hholds1)
    as (Hok & _ & Hfile2 & _).
  destruct (storeFacts_holds selected2 w fs Hwritable Hholds)
    as (_ & _ & Hfile & _).
  split; [exact Hok|].
  rewrite Hfile2, Hfile.
  rewrite <- (dedupe_reselect selected1), dedupe_dedupe, dedupe_reselect.
  rewrite reselect_reselect. reflexivity.
Qed.

(** The handler on a modal submission of an allowed user. *)
Lemma router_post_submission request interaction username submitted w :
  delivers request interaction ->
  get interaction "type" = ok (VNum InteractionType.MODAL_SUBMIT) ->
  get_path interaction ["member"; "user"; "username"] = ok username ->
  fst (validateUserAccess username w) = ok None ->
  get_path interaction ["data"; "components"; "0"; "components"; "0"; "value"] =
    ok submitted ->
  router_post request w =
  (storeFact submitted VUndefined ;;
   ret (JsonResponse
          (message_payload "Fact added! They better hold on to their butts...")
          None)) w.
Proof.
  intros Hdel Htype Huser Hallowed Hvalue.
  rewrite (router_post_enter _ _ _ w Hdel Htype).
  cbn [Z.eqb InteractionType.PING InteractionType.APPLICATION_COMMAND
       InteractionType.MODAL_SUBMIT Pos.eqb].
  unfold bind at 1. unfold lift at 1. rewrite Huser. unfold ok at 1.
  unfold bind at 1. rewrite (guard_allows _ _ Hallowed). unfold ok at 1.
  unfold bind at 1. unfold lift at 1. rewrite Hvalue. unfold ok at 1.
  reflexivity.
Qed.

(** The handler on a selection of an allowed user. *)
Lemma router_post_selection request interaction username values w :
  delivers request interaction ->
  get interaction "type" = ok (VNum InteractionType.MESSAGE_COMPONENT) ->
  get_path interaction ["member"; "user"; "username"] = ok username ->
  fst (validateUserAccess username w) = ok None ->
  get_path interaction ["data"; "values"] = ok values ->
  router_post request w =
  (storeFacts values ;;
   ret (JsonResponse (message_payload "Facts updated!") None)) w.
Proof.
  intros Hdel Htype Huser Hallowed Hvalues.
  rewrite (router_post_enter _ _ _ w Hdel Htype).
  cbn [Z.eqb InteractionType.PING InteractionType.APPLICATION_COMMAND
       InteractionType.MODAL_SUBMIT InteractionType.MESSAGE_COMPONENT Pos.eqb].
  unfold bind at 1. unfold lift at 1. rewrite Huser. unfold ok at 1.
  unfold bind at 1. rewrite (guard_allows _ _ Hallowed). unfold ok at 1.
  unfold bind at 1. unfold lift at 1. rewrite Hvalues. unfold ok at 1.
  reflexivity.
Qed.

End Composition.

(* ================================================================= *)
(** ** Interactions that change the store *)

Lemma get_path_raises_TypeError ks v e : get_path v ks = raise e -> e = TypeError.
Proof.
  revert v. induction ks as [|k rest IH]; intros v; cbn [get_path].
  - discriminate.
  - destruct (get v k) as [e1 | v1] eqn:Hget; cbn [rbind].
    + unfold raise. intros Heq. injection Heq as <-.
      apply (get_raises_TypeError _ _ _ Hget).
    + apply IH.
Qed.

Lemma upsert_In_new fs f : In f (upsert fs f).
Proof.
  induction fs as [|g rest IH]; cbn; [now left|].
  destruct (fact g =? fact f)%string; cbn; auto.
Qed.


Lemma reselect_enabled selected f :
  is_enabled (reselect selected f) = true <-> In (fact f) selected.
Proof.
  cbn [reselect is_enabled]. rewrite existsb_exists. split.
  - intros (t & Hin & Heq). apply String.eqb_eq in Heq. now subst t.
  - intros Hin. exists (fact f). split; [exact Hin | apply String.eqb_refl].
Qed.

(** The guard answers the same in every world. *)
Lemma guard_allows_anywhere username w w' :
  fst (validateUserAccess username w) = ok None ->
  fst (validateUserAccess username w') = ok None.
Proof.
  intros Hallowed.
  destruct (validateUserAccess_cases username w) as [[Hin _] | [_ Heq]].
  - now rewrite (validateUserAccess_allowed username w' Hin).
  - rewrite Heq in Hallowed. unfold ok in Hallowed. cbn in Hallowed. discriminate.
Qed.

Section Changes.
Context `{Platform}.

Hypothesis JSON_roundtrip :
  forall fs, JSON_parse (JSON_stringify (facts_value fs)) = Some (facts_value fs).

(** X23.  A modal submission of an allowed user whose payload lacks a step
    of [data.components[0].components[0].value] below which the next is
    read (no [data], no [components], an empty [components]) gets no
    response: the handler throws a TypeError, and the world is left as it
    was. *)
Theorem malformed_submission_throws_TypeError
    request interaction username e w :
  delivers request interaction ->
  get interaction "type" = ok (VNum InteractionType.MODAL_SUBMIT) ->
  get_path interaction ["member"; "user"; "username"] = ok username ->
  fst (validateUserAccess username w) = ok None ->
  get_path interaction ["data"; "components"; "0"; "components"; "0"; "value"] =
    raise e ->
  router_post request w = (raise TypeError, w).
Proof.
  intros Hdel Htype Huser Hallowed Hvalue.
  rewrite (get_path_raises_TypeError _ _ _ Hvalue) in Hvalue.
  rewrite (router_post_enter _ _ _ w Hdel Htype).
  cbn [Z.eqb InteractionType.PING InteractionType.APPLICATION_COMMAND
       InteractionType.MODAL_SUBMIT Pos.eqb].
  unfold bind at 1. unfold lift at 1. rewrite Huser. unfold ok at 1.
  unfold bind at 1. rewrite (guard_allows _ _ Hallowed). unfold ok at 1.
  unfold bind at 1. unfold lift at 1. rewrite Hvalue. reflexivity.
Qed.

(** X24.  When the store cannot be written, a modal submission of an
    allowed user gets no response: the Error "Error writing to facts
    file:" of [storeFact] leaves the handler, and the file is as before. *)
Theorem submission_on_unwritable_store_throws
    request interaction username submitted w :
  delivers request interaction ->
  get interaction "type" = ok (VNum InteractionType.MODAL_SUBMIT) ->
  get_path interaction ["member"; "user"; "username"] = ok username ->
  fst (validateUserAccess username w) = ok None ->
  get_path interaction ["data"; "components"; "0"; "components"; "0"; "value"] =
    ok submitted ->
  writable w = false ->
  fst (router_post request w) = raise store_error /\
  file (snd (router_post request w)) = file w.
Proof.
  intros Hdel Htype Huser Hallowed Hvalue Hwritable.
  rewrite (router_post_submission _ _ _ _ _ Hdel Htype Huser Hallowed Hvalue).
  unfold bind.
  destruct (storeFact_outcome submitted VUndefined w)
    as [(data & tail & _ & Htrue & _) | (before & -> & _)];
    [congruence | split; reflexivity].
Qed.


(** X26.  A fact added through the form shows up in the menu: after a
    modal submission of an allowed user with the text [t], on a writable
    store, the select command of an allowed user lists, among its options,
    the text [t] pre-selected, once; every other option shows a fact that
    was stored before, with another text. *)
Theorem submitted_fact_is_listed_enabled
    submit interaction1 username1 t
    select interaction2 username2 commandName w fs :
  delivers submit interaction1 ->
  get interaction1 "type" = ok (VNum InteractionType.MODAL_SUBMIT) ->
  get_path interaction1 ["member"; "user"; "username"] = ok username1 ->
  fst (validateUserAccess username1 w) = ok None ->
  get_path interaction1 ["data"; "components"; "0"; "components"; "0"; "value"] =
    ok (VStr t) ->
  delivers select interaction2 ->
  get interaction2 "type" = ok (VNum InteractionType.APPLICATION_COMMAND) ->
  get_path interaction2 ["member"; "user"; "username"] = ok username2 ->
  fst (validateUserAccess username2 w) = ok None ->
  get_path interaction2 ["data"; "name"] = ok (VStr commandName) ->
  lower commandName = name SELECT_COMMAND ->
  writable w = true ->
  holds w fs ->
  fst (router_post submit w) =
    ok (JsonResponse
          (message_payload "Fact added! They better hold on to their butts...") None) /\
  exists shown,
    fst (router_post select (snd (router_post submit w))) =
      ok (JsonResponse
            (select_payload (VNum (Z.of_nat (List.length shown)))
                            (map fact_option shown)) None) /\
    NoDup (map fact shown) /\
    In (mkFact t true) shown /\
    (forall f, In f shown -> f = mkFact t true \/ (In f fs /\ fact f <> t)).
Proof.
  intros Hdel1 Htype1 Huser1 Hallowed1 Hvalue
         Hdel2 Htype2 Huser2 Hallowed2 Hname Hlower Hwritable Hholds.
  rewrite (router_post_submission _ _ _ _ _ Hdel1 Htype1 Huser1 Hallowed1 Hvalue).
  destruct (storeFact_holds JSON_roundtrip t None w fs Hwritable Hholds)
    as (Hok & _ & _ & Hafter).
  change (enabled_arg None) with VUndefined in *.
  change (enabled_of None) with true in *.
  set (w1 := snd (storeFact (VStr t) VUndefined w)) in *.
  assert (Hrun :
    (storeFact (VStr t) VUndefined ;;
     ret (JsonResponse
            (message_payload "Fact added! They better hold on to their butts...")
            None)) w =
    (ok (JsonResponse
           (message_payload "Fact added! They better hold on to their butts...")
           None), w1)).
  { unfold bind, w1. destruct (storeFact (VStr t) VUndefined w) as [r w'].
    cbn [fst snd] in *. subst r. reflexivity. }
  rewrite Hrun. cbn [fst snd].
  split; [reflexivity|].
  exists (upsert (dedupe fs) (mkFact t true)).
  split; [|split; [|split]].
  - rewrite (router_post_command _ _ _ _ _ Hdel2 Htype2 Huser2
               (guard_allows_anywhere _ _ w1 Hallowed2) Hname).
    rewrite Hlower. cbn [name SELECT_COMMAND String.eqb Ascii.eqb Bool.eqb].
    rewrite (select_reply_holds _ _ Hafter). reflexivity.
  - apply upsert_NoDup, dedupe_NoDup.
  - apply upsert_In_new.
  - intros f Hin. destruct (string_dec (fact f) t) as [Heq | Hneq].
    + left. apply (upsert_key (dedupe fs) (mkFact t true) f);
        [apply dedupe_NoDup | exact Hin | exact Heq].
    + right. apply upsert_In in Hin. destruct Hin as [-> | Hin]; [now cbn in Hneq|].
      split; [now apply dedupe_In | exact Hneq].
Qed.

(** X27.  A selection shows up in the menu: after a selection of an
    allowed user with the texts [selected], on a writable store that holds
    facts with pairwise distinct texts, the select command of an allowed
    user lists the same facts in the same order, each pre-selected exactly
    when its text is among [selected]. *)
Theorem selection_is_shown_by_select
    choose interaction1 username1 selected
    select interaction2 username2 commandName w fs :
  delivers choose interaction1 ->
  get interaction1 "type" = ok (VNum InteractionType.MESSAGE_COMPONENT) ->
  get_path interaction1 ["member"; "user"; "username"] = ok username1 ->
  fst (validateUserAccess username1 w) = ok None ->
  get_path interaction1 ["data"; "values"] = ok (VArr (map VStr selected)) ->
  delivers select interaction2 ->
  get interaction2 "type" = ok (VNum InteractionType.APPLICATION_COMMAND) ->
  get_path interaction2 ["member"; "user"; "username"] = ok username2 ->
  fst (validateUserAccess username2 w) = ok None ->
  get_path interaction2 ["data"; "name"] = ok (VStr commandName) ->
  lower commandName = name SELECT_COMMAND ->
  writable w = true ->
  holds w fs ->
  NoDup (map fact fs) ->
  fst (router_post choose w) =
    ok (JsonResponse (message_payload "Facts updated!") None) /\
  exists shown,
    fst (router_post select (snd (router_post choose w))) =
      ok (JsonResponse
            (select_payload (VNum (Z.of_nat (List.length fs)))
                            (map fact_option shown)) None) /\
    map fact shown = map fact fs /\
    (forall f, In f shown -> (is_enabled f = true <-> In (fact f) selected)).
Proof.
  intros Hdel1 Htype1 Huser1 Hallowed1 Hvalues
         Hdel2 Htype2 Huser2 Hallowed2 Hname Hlower Hwritable Hholds Hnodup.
  rewrite (router_post_selection _ _ _ _ _ Hdel1 Htype1 Huser1 Hallowed1 Hvalues).
  destruct (storeFacts_holds JSON_roundtrip selected w fs Hwritable Hholds)
    as (Hok & _ & _ & Hafter).
  rewrite (dedupe_distinct fs Hnodup) in Hafter.
  set (w1 := snd (storeFacts (VArr (map VStr selected)) w)) in *.
  assert (Hrun :
    (storeFacts (VArr (map VStr selected)) ;;
     ret (JsonResponse (message_payload "Facts updated!") None)) w =
    (ok (JsonResponse (message_payload "Facts updated!") None), w1)).
  { unfold bind, w1. destruct (storeFacts (VArr (map VStr selected)) w) as [r w'].
    cbn [fst snd] in *. subst r. reflexivity. }
  rewrite Hrun. cbn [fst snd].
  split; [reflexivity|].
  exists (map (reselect selected) fs).
  split; [|split].
  - rewrite (router_post_command _ _ _ _ _ Hdel2 Htype2 Huser2
               (guard_allows_anywhere _ _ w1 Hallowed2) Hname).
    rewrite Hlower. cbn [name SELECT_COMMAND String.eqb Ascii.eqb Bool.eqb].
    rewrite (select_reply_holds _ _ Hafter). rewrite length_map. reflexivity.
  - rewrite map_map. reflexivity.
  - intros f Hin. apply in_map_iff in Hin. destruct Hin as (g & <- & _).
    exact (reselect_enabled selected g).
Qed.

End Changes.

(* ================================================================= *)
(** ** Further scenarios on the reference platform *)


(** Witness of X2: a signed request whose body is [null]. *)
Lemma falsy_body_gets_401_witness :
  delivers (Sample.request "null") VNull /\
  router_post (Sample.request "null") Sample.no_file =
    (ok bad_signature_response, Sample.no_file).
Proof.
  assert (Hdel : delivers (Sample.request "null") VNull).
  { repeat split; vm_compute; reflexivity. }
  split; [exact Hdel|].
  apply (falsy_body_gets_401 _ VNull _ Hdel). reflexivity.
Defined.

(** Witness of X3: a signed request whose body breaks off. *)
Lemma unparsable_body_throws_SyntaxError_witness :
  JSON_parse (text (Sample.request "{'type':")) = None /\
  router_post (Sample.request "{'type':") Sample.no_file =
    (raise SyntaxError, Sample.no_file).
Proof.
  split; [vm_compute; reflexivity|].
  apply unparsable_body_throws_SyntaxError; vm_compute; reflexivity.
Defined.

(** Witness of X4: a PING that names a user who is not on the list. *)
Lemma ping_gets_pong_without_guard_witness :
  let request :=
    Sample.request "{'type':1,'member':{'user':{'username':'mallory'}}}" in
  router_post request (Sample.store Sample.tea) =
    (ok pong_response, Sample.store Sample.tea) /\
  status pong_response = 200 /\
  body pong_response = Json (VObj [("type", VNum InteractionResponseType.PONG)]).
Proof.
  cbv zeta.
  apply (ping_gets_pong_without_guard _
           (VObj [("type", VNum 1);
                  ("member", VObj [("user", VObj [("username", VStr "mallory")])])])).
  - repeat split; vm_compute; reflexivity.
  - reflexivity.
Defined.

(** Witness of X5: an interaction whose type is the string ["2"]. *)
Lemma unknown_interaction_type_gets_400_witness :
  router_post Probe.typed_by_string (Sample.store Sample.tea) =
    (ok unknown_type_response,
     emit (ConsoleError "Unknown Type") (Sample.store Sample.tea)) /\
  status unknown_type_response = 400.
Proof.
  apply (unknown_interaction_type_gets_400 _
           (VObj [("type", VStr "2");
                  ("member", VObj [("user", VObj [("username", VStr "LuggageMoose")])])])
           (VStr "2")).
  - repeat split; vm_compute; reflexivity.
  - reflexivity.
  - reflexivity.
  - intros n _. discriminate.
Defined.

(** Witness of X6: an add command with [user] in the place of [member]. *)
Lemma missing_member_throws_TypeError_witness :
  router_post Probe.direct_message (Sample.store Sample.tea) =
    (raise TypeError, Sample.store Sample.tea).
Proof.
  apply (missing_member_throws_TypeError _
           (VObj [("type", VNum 2);
                  ("user", VObj [("username", VStr "LuggageMoose")]);
                  ("data", VObj [("name", VStr "add")])])
           InteractionType.APPLICATION_COMMAND).
  - repeat split; vm_compute; reflexivity.
  - reflexivity.
  - left. reflexivity.
  - left. reflexivity.
Defined.

(** Witness of X8: a selection whose user has no name. *)
Lemma non_string_username_gets_403_witness :
  let request :=
    Sample.request "{'type':3,'member':{'user':{}},'data':{'values':['B']}}" in
  let w := Sample.store Sample.a_and_b in
  router_post request w =
    (ok forbidden_response, emit (ConsoleError "Invalid user access") w).
Proof.
  cbv zeta.
  apply (non_string_username_gets_403 _
           (VObj [("type", VNum 3);
                  ("member", VObj [("user", VObj [])]);
                  ("data", VObj [("values", VArr [VStr "B"])])])
           InteractionType.MESSAGE_COMPONENT VUndefined).
  - repeat split; vm_compute; reflexivity.
  - reflexivity.
  - right. right. left. reflexivity.
  - reflexivity.
  - intros s. discriminate.
Defined.

(** Witness of X9: the add command on a store that cannot be written. *)
Lemma add_command_opens_form_without_store_access_witness :
  let request := Sample.command "LuggageMoose" "Add" in
  let w := Probe.read_only "not json" in
  router_post request w = (ok (JsonResponse modal_payload None), w) /\
  exists input,
    get_path modal_payload ["data"; "components"; "0"; "components"] =
      ok (VArr [input]) /\
    get input "type" = ok (VNum MessageComponentTypes.INPUT_TEXT) /\
    get input "min_length" = ok (VNum 1) /\
    get input "max_length" = ok (VNum 1000) /\
    get input "required" = ok (VBool true).
Proof.
  cbv zeta.
  apply (add_command_opens_form_without_store_access _
           (Sample.interaction 2 "LuggageMoose" (VObj [("name", VStr "Add")]))
           (VStr "LuggageMoose") "Add").
  - repeat split; vm_compute; reflexivity.
  - reflexivity.
  - reflexivity.
  - reflexivity.
  - reflexivity.
  - reflexivity.
Defined.

(** Witness of X10: the select command on a store that holds an object. *)
Lemma select_command_only_reads_witness :
  let request := Sample.command "LuggageMoose" "select" in
  let w := Sample.store "{'fact':'A'}" in
  file (snd (router_post request w)) = file w /\
  writable (snd (router_post request w)) = writable w /\
  filter is_file_event (log (snd (router_post request w))) =
  (filter is_file_event (log w) ++ [ReadFile])%list.
Proof.
  cbv zeta.
  apply (select_command_only_reads _
           (Sample.interaction 2 "LuggageMoose" (VObj [("name", VStr "select")]))
           (VStr "LuggageMoose") "select").
  - repeat split; vm_compute; reflexivity.
  - reflexivity.
  - reflexivity.
  - reflexivity.
  - reflexivity.
  - reflexivity.
Defined.

(** Witness of X11: the select command on a store with no file. *)
Lemma select_command_on_unreadable_store_witness :
  let request := Sample.command "LuggageMoose" "select" in
  fst (router_post request Sample.no_file) =
    ok (JsonResponse (select_payload (VNum 0) []) None) /\
  exists menu,
    get_path (select_payload (VNum 0) []) ["data"; "components"; "0"; "components"] =
      ok (VArr [menu]) /\
    get menu "options" = ok (VArr []) /\
    get menu "min_values" = ok (VNum 1) /\
    get menu "max_values" = ok (VNum 0).
Proof.
  cbv zeta.
  apply (select_command_on_unreadable_store _
           (Sample.interaction 2 "LuggageMoose" (VObj [("name", VStr "select")]))
           (VStr "LuggageMoose") "select").
  - repeat split; vm_compute; reflexivity.
  - reflexivity.
  - reflexivity.
  - reflexivity.
  - reflexivity.
  - reflexivity.
  - left. reflexivity.
Defined.

(** Witness of X12: the select command on a store that holds [[null]], and
    on one that holds an object. *)
Lemma select_command_on_malformed_store_witness :
  let request := Sample.command "LuggageMoose" "select" in
  fst (router_post request (Sample.store "[null]")) = raise TypeError /\
  fst (router_post request (Sample.store "{'fact':'A'}")) = raise TypeError.
Proof.
  cbv zeta. split.
  - apply (select_command_on_malformed_store _
             (Sample.interaction 2 "LuggageMoose" (VObj [("name", VStr "select")]))
             (VStr "LuggageMoose") "select" _
             (Reference.json_text "[null]") (VArr [VNull]));
      try reflexivity.
    + repeat split; vm_compute; reflexivity.
    + right. exists [VNull]. split; [reflexivity | now left].
  - apply (select_command_on_malformed_store _
             (Sample.interaction 2 "LuggageMoose" (VObj [("name", VStr "select")]))
             (VStr "LuggageMoose") "select" _
             (Reference.json_text "{'fact':'A'}") (VObj [("fact", VStr "A")]));
      try reflexivity.
    + repeat split; vm_compute; reflexivity.
    + left. intros elems. discriminate.
Defined.

(** Witness of X13: the 403 for a user who is not on the list. *)
Lemma error_responses_carry_no_content_type_witness :
  fst (router_post (Sample.command "mallory" "add") Sample.no_file) =
    ok forbidden_response /\
  ((status forbidden_response = 200 /\ headers forbidden_response = json_headers) \/
   (In (status forbidden_response) [400; 401; 403] /\
    headers forbidden_response = [])).
Proof.
  assert (Hreply : fst (router_post (Sample.command "mallory" "add") Sample.no_file) =
                   ok forbidden_response).
  { vm_compute. reflexivity. }
  split; [exact Hreply|].
  exact (error_responses_carry_no_content_type _ _ _ Hreply).
Defined.

(** Witness of X16: a store that cannot be written. *)
Lemma unwritable_store_throws_store_error_witness :
  let w := Probe.read_only Sample.tea in
  (fst (storeFact (VStr "New fact") VUndefined w) = raise store_error /\
   file (snd (storeFact (VStr "New fact") VUndefined w)) = file w) /\
  (fst (storeFacts (VArr [VStr "Ben likes tea"]) w) = raise store_error /\
   file (snd (storeFacts (VArr [VStr "Ben likes tea"]) w)) = file w).
Proof.
  cbv zeta. apply unwritable_store_throws_store_error. reflexivity.
Defined.

(** Witness of X17: a store that holds [[null]]. *)
Lemma storeFact_on_malformed_store_witness :
  let w := Sample.store "[null]" in
  storeFact (VStr "New fact") VUndefined w =
  (raise store_error,
   emit (ConsoleError "Error writing to facts file:") (emit ReadFile w)).
Proof.
  cbv zeta.
  apply (storeFact_on_malformed_store _ _ _ (Reference.json_text "[null]")
           (VArr [VNull])).
  - reflexivity.
  - vm_compute. reflexivity.
  - right. exists [VNull]. split; [reflexivity | now left].
Defined.

(** Witness of X18: the number 7 in the place of the selected texts. *)
Lemma storeFacts_of_non_iterable_witness :
  let w := Sample.store Sample.tea in
  storeFacts (VNum 7) w =
  (raise store_error, emit (ConsoleError "Error writing to facts file:") w).
Proof.
  cbv zeta. apply storeFacts_of_non_iterable. right. left. exists 7. reflexivity.
Defined.

(** Witness of X20: A enabled and B disabled, and a call for B. *)
Lemma storeFact_appends_or_replaces_in_place_witness :
  let w := Sample.store Sample.a_and_b in
  let fs := [mkFact "A" true; mkFact "B" false] in
  let w' := snd (storeFact (VStr "B") (enabled_arg None) w) in
  holds w fs /\
  fst (storeFact (VStr "B") (enabled_arg None) w) = ok tt /\
  (~ In "B" (map fact fs) -> holds w' (fs ++ [mkFact "B" (enabled_of None)])) /\
  (forall before old after,
     fs = (before ++ old :: after)%list -> fact old = "B" ->
     holds w' (before ++ mkFact "B" (enabled_of None) :: after)).
Proof.
  cbv zeta. split; [reflexivity|].
  apply (@storeFact_appends_or_replaces_in_place reference_platform
           ReferenceProps.parse_stringify_facts).
  - reflexivity.
  - reflexivity.
  - repeat constructor; cbn; intuition discriminate.
Defined.

(** What the call of the witness leaves in the file. *)
Example add_existing_disabled_fact :
  file (snd (storeFact (VStr "B") VUndefined (Sample.store Sample.a_and_b))) =
  Some (Reference.json_text
          "[{'fact':'A','is_enabled':true},{'fact':'B','is_enabled':true}]").
Proof.
  vm_compute. reflexivity.
Qed.

(** Witness of X21: B disabled and then enabled, on the tea store. *)
Lemma storeFact_again_overwrites_witness :
  let w := Sample.store Sample.tea in
  let w1 := snd (storeFact (VStr "B") (enabled_arg (Some false)) w) in
  holds w [mkFact "Ben likes tea" true] /\
  fst (storeFact (VStr "B") (enabled_arg None) w1) = ok tt /\
  file (snd (storeFact (VStr "B") (enabled_arg None) w1)) =
  file (snd (storeFact (VStr "B") (enabled_arg None) w)).
Proof.
  cbv zeta. split; [reflexivity|].
  apply (@storeFact_again_overwrites reference_platform
           ReferenceProps.parse_stringify_facts
           "B" (Some false) None (Sample.store Sample.tea)
           [mkFact "Ben likes tea" true]);
    reflexivity.
Defined.

(** Witness of X22: A selected and then B selected. *)
Lemma storeFacts_last_selection_wins_witness :
  let w := Sample.store Sample.a_and_b in
  let w1 := snd (storeFacts (VArr (map VStr ["A"])) w) in
  holds w [mkFact "A" true; mkFact "B" false] /\
  fst (storeFacts (VArr (map VStr ["B"])) w1) = ok tt /\
  file (snd (storeFacts (VArr (map VStr ["B"])) w1)) =
  file (snd (storeFacts (VArr (map VStr ["B"])) w)).
Proof.
  cbv zeta. split; [reflexivity|].
  apply (@storeFacts_last_selection_wins reference_platform
           ReferenceProps.parse_stringify_facts
           ["A"] ["B"] (Sample.store Sample.a_and_b)
           [mkFact "A" true; mkFact "B" false]);
    reflexivity.
Defined.

(** Witness of X23: a submission whose data has no components. *)
Lemma malformed_submission_throws_TypeError_witness :
  let request :=
    Sample.request "{'type':5,'member':{'user':{'username':'LuggageMoose'}},'data':{}}" in
  router_post request (Sample.store Sample.tea) =
    (raise TypeError, Sample.store Sample.tea).
Proof.
  cbv zeta.
  apply (malformed_submission_throws_TypeError _
           (Sample.interaction 5 "LuggageMoose" (VObj []))
           (VStr "LuggageMoose") TypeError).
  - repeat split; vm_compute; reflexivity.
  - reflexivity.
  - reflexivity.
  - reflexivity.
  - reflexivity.
Defined.

(** Witness of X24: a submission to a store that cannot be written. *)
Lemma submission_on_unwritable_store_throws_witness :
  let request := Sample.submission "LuggageMoose" "Ben naps" in
  let w := Probe.read_only Sample.tea in
  fst (router_post request w) = raise store_error /\
  file (snd (router_post request w)) = file w.
Proof.
  cbv zeta.
  apply (submission_on_unwritable_store_throws _
           (Sample.interaction 5 "LuggageMoose"
              (VObj [("components",
                      VArr [VObj [("components",
                                   VArr [VObj [("value", VStr "Ben naps")]])]])]))
           (VStr "LuggageMoose") (VStr "Ben naps")).
  - repeat split; vm_compute; reflexivity.
  - reflexivity.
  - reflexivity.
  - reflexivity.
  - reflexivity.
  - reflexivity.
Defined.


(** Witness of X26: a submission to the tea store, then the select
    command. *)
Lemma submitted_fact_is_listed_enabled_witness :
  let submit := Sample.submission "encryptoknight" "Ben naps" in
  let select := Sample.command "LuggageMoose" "SELECT" in
  let w := Sample.store Sample.tea in
  let fs := [mkFact "Ben likes tea" true] in
  fst (router_post submit w) =
    ok (JsonResponse
          (message_payload "Fact added! They better hold on to their butts...") None) /\
  exists shown,
    fst (router_post select (snd (router_post submit w))) =
      ok (JsonResponse
            (select_payload (VNum (Z.of_nat (List.length shown)))
                            (map fact_option shown)) None) /\
    NoDup (map fact shown) /\
    In (mkFact "Ben naps" true) shown /\
    (forall f, In f shown ->
       f = mkFact "Ben naps" true \/ (In f fs /\ fact f <> "Ben naps")).
Proof.
  cbv zeta.
  apply (@submitted_fact_is_listed_enabled reference_platform
           ReferenceProps.parse_stringify_facts
           (Sample.submission "encryptoknight" "Ben naps")
           (Sample.interaction 5 "encryptoknight"
              (VObj [("components",
                      VArr [VObj [("components",
                                   VArr [VObj [("value", VStr "Ben naps")]])]])]))
           (VStr "encryptoknight") "Ben naps"
           (Sample.command "LuggageMoose" "SELECT")
           (Sample.interaction 2 "LuggageMoose" (VObj [("name", VStr "SELECT")]))
           (VStr "LuggageMoose") "SELECT");
    try reflexivity;
    repeat split; vm_compute; reflexivity.
Defined.

(** Witness of X27: B selected on A enabled, B disabled, then the select
    command. *)
Lemma selection_is_shown_by_select_witness :
  let choose := Sample.selection_of_B "LuggageMoose" in
  let select := Sample.command "encryptoknight" "select" in
  let w := Sample.store Sample.a_and_b in
  let fs := [mkFact "A" true; mkFact "B" false] in
  fst (router_post choose w) =
    ok (JsonResponse (message_payload "Facts updated!") None) /\
  exists shown,
    fst (router_post select (snd (router_post choose w))) =
      ok (JsonResponse
            (select_payload (VNum (Z.of_nat (List.length fs)))
                            (map fact_option shown)) None) /\
    map fact shown = map fact fs /\
    (forall f, In f shown -> (is_enabled f = true <-> In (fact f) ["B"])).
Proof.
  cbv zeta.
  apply (@selection_is_shown_by_select reference_platform
           ReferenceProps.parse_stringify_facts
           (Sample.selection_of_B "LuggageMoose")
           (Sample.interaction 3 "LuggageMoose" (VObj [("values", VArr [VStr "B"])]))
           (VStr "LuggageMoose") ["B"]
           (Sample.command "encryptoknight" "select")
           (Sample.interaction 2 "encryptoknight" (VObj [("name", VStr "select")]))
           (VStr "encryptoknight") "select");
    try reflexivity;
    try (repeat split; vm_compute; reflexivity).
  repeat constructor; cbn; intuition discriminate.
Defined.

(** What the two interactions of the witness answer in the end. *)
Example selection_then_select_outcome :
  let w1 := snd (router_post (Sample.selection_of_B "LuggageMoose")
                             (Sample.store Sample.a_and_b)) in
  fst (router_post (Sample.command "encryptoknight" "select") w1) =
  ok (JsonResponse
        (select_payload (VNum 2)
           [VObj [("label", VStr "A"); ("value", VStr "A"); ("default", VBool false)];
            VObj [("label", VStr "B"); ("value", VStr "B"); ("default", VBool true)]])
        None).
Proof.
  vm_compute. reflexivity.
Qed.
